(** * dbastion: policy pipeline, fix application, CLI gates and log retention

    Shallow embedding of the Python sources under [src/dbastion]:
    - [policy/classify.py]      : [classify] and its helpers
    - [policy/safety.py]        : [check_multiple_statements],
                                  [check_dangerous_functions], the WHERE checks
    - [policy/enrich.py]        : [inject_limit]
    - [policy/__init__.py]      : [run_policy]
    - [diagnostics/types.py]    : [Diagnostic], [DiagnosticResult], [apply_fixes]
    - [diagnostics/codes.py]    : the code registry, as a module namespace
    - [adapters/cost.py]        : [check_cost_threshold]
    - [cli/query.py], [cli/exec.py] : the steps of [_run_query] / [_run_exec]
    - [querylog.py]             : [cleanup_old_logs]

    Python exceptions are made explicit: every function that can raise
    returns a value of the [py] error monad.  The SQL parser (sqlglot) is an
    external library; it is an interface ([Sqlglot]) the pipeline is
    parameterised over. *)

From Stdlib Require Import String Ascii List ZArith Bool Lia QArith.
From Stdlib Require Import Sorting.Permutation Sorting.Sorted DecimalZ.
Import ListNotations.
Open Scope string_scope.
Open Scope Z_scope.
Set Warnings "-register-all".

(* ------------------------------------------------------------------ *)
(** ** Python exceptions and the error monad *)

(** sqlglot's exception hierarchy: [ParseError] and [TokenError] are two
    distinct subclasses of [SqlglotError]. *)
Inductive sqlglot_error :=
| ParseError (msg : string)
| TokenError (msg : string)
| OtherSqlglotError (msg : string).

Inductive exn :=
| SqlglotExn (e : sqlglot_error)
| TypeError (msg : string)
| AttributeError (msg : string)
| OverflowError (msg : string).

Inductive py (A : Type) :=
| Ok (a : A)
| Raise (e : exn).
Arguments Ok {A} a.
Arguments Raise {A} e.

Definition py_bind {A B} (m : py A) (k : A -> py B) : py B :=
  match m with
  | Ok a => k a
  | Raise e => Raise e
  end.

Notation "x <- m ;; k" := (py_bind m (fun x => k))
  (at level 61, m at next level, right associativity).

(** Result of a sqlglot entry point: a value, or a raised [SqlglotError]. *)
Inductive sresult (A : Type) :=
| SOk (a : A)
| SErr (e : sqlglot_error).
Arguments SOk {A} a.
Arguments SErr {A} e.

(* ------------------------------------------------------------------ *)
(** ** Python string helpers *)

(** [str.isspace] on the code points an [ascii] can hold. *)
Definition py_isspace (c : ascii) : bool :=
  let n := nat_of_ascii c in
  (Nat.leb 9 n && Nat.leb n 13) || (Nat.leb 28 n && Nat.leb n 32)
  || Nat.eqb n 133 || Nat.eqb n 160.

Fixpoint drop_space (l : list ascii) : list ascii :=
  match l with
  | [] => []
  | c :: r => if py_isspace c then drop_space r else l
  end.

(** [str.strip()] *)
Definition py_strip (s : string) : string :=
  string_of_list_ascii
    (rev (drop_space (rev (drop_space (list_ascii_of_string s))))).

(** [str.find(c)]: index of the first occurrence, or -1. *)
Fixpoint find_char_aux (c : ascii) (s : string) (i : Z) : Z :=
  match s with
  | EmptyString => -1
  | String d r => if Ascii.eqb c d then i else find_char_aux c r (i + 1)
  end.

Definition py_find (s : string) (c : ascii) : Z := find_char_aux c s 0.

Definition py_len (s : string) : Z := Z.of_nat (String.length s).

(** [s[:k]] and [s[k:]] with Python's clamping of out-of-range and
    negative indices. *)
Definition py_index (s : string) (k : Z) : nat :=
  let n := py_len s in
  Z.to_nat (if k <? 0 then Z.max 0 (n + k) else Z.min k n).

Definition py_prefix (s : string) (k : Z) : string :=
  substring 0 (py_index s k) s.

Definition py_suffix (s : string) (k : Z) : string :=
  let i := py_index s k in substring i (String.length s - i) s.

(** [str(n)] for an integer: the decimal digits of [Z.to_int], which has
    no leading zeros and no bound on the number of digits. *)
Fixpoint uint_to_str (u : Decimal.uint) : string :=
  match u with
  | Decimal.Nil => ""
  | Decimal.D0 r => String "0" (uint_to_str r)
  | Decimal.D1 r => String "1" (uint_to_str r)
  | Decimal.D2 r => String "2" (uint_to_str r)
  | Decimal.D3 r => String "3" (uint_to_str r)
  | Decimal.D4 r => String "4" (uint_to_str r)
  | Decimal.D5 r => String "5" (uint_to_str r)
  | Decimal.D6 r => String "6" (uint_to_str r)
  | Decimal.D7 r => String "7" (uint_to_str r)
  | Decimal.D8 r => String "8" (uint_to_str r)
  | Decimal.D9 r => String "9" (uint_to_str r)
  end.

Definition z_to_str (n : Z) : string :=
  match Z.to_int n with
  | Decimal.Pos u => uint_to_str u
  | Decimal.Neg u => "-" ++ uint_to_str u
  end.

(* ------------------------------------------------------------------ *)
(** ** The sqlglot expression tree

    An [exp.Expression] is a node of some class with an [args] dictionary;
    list-valued args are flattened into several entries with the same key.
    Only the classes the policy code tests with [isinstance] are named. *)

Inductive kind :=
| Select | Union | Intersect | Except
| Insert | Update | Delete | Merge
| Create | Drop | Alter | TruncateTable
| Grant | Copy | Command
| CTE | Into | Limit | Group | Where | From | Subquery
| Table (name : string) | Column (name : string)
| Literal (is_string : bool) (this : string)
| Anonymous (name : string)        (** [exp.Anonymous], name = [func.name] *)
| Func (sql_name : string)         (** a built-in [exp.Func] subclass *)
| Other (key : string).

Inductive Expression :=
| Node (k : kind) (args : list (string * Expression)).

Definition kind_of (e : Expression) : kind := match e with Node k _ => k end.

Definition args_of (e : Expression) : list (string * Expression) :=
  match e with Node _ a => a end.

Fixpoint arg_lookup (key : string) (args : list (string * Expression))
  : option Expression :=
  match args with
  | [] => None
  | (k, v) :: r => if String.eqb k key then Some v else arg_lookup key r
  end.

(** [node.args.get(key)] and [node.this] *)
Definition arg (e : Expression) (key : string) : option Expression :=
  arg_lookup key (args_of e).

Definition this (e : Expression) : option Expression := arg e "this".

(** [Expression.walk()]: the node itself and every descendant. sqlglot walks
    breadth-first; every use below only asks whether some node is found. *)
Fixpoint walk (e : Expression) : list Expression :=
  match e with
  | Node _ args =>
      e :: (fix go (l : list (string * Expression)) : list Expression :=
              match l with
              | [] => []
              | (_, c) :: r => app (walk c) (go r)
              end) args
  end.

Definition find_all (p : kind -> bool) (e : Expression) : list Expression :=
  filter (fun n => p (kind_of n)) (walk e).

(** [Expression.find(T)] *)
Definition find (p : kind -> bool) (e : Expression) : option Expression :=
  hd_error (find_all p e).

Definition is_select k := match k with Select => true | _ => false end.
Definition is_cte k := match k with CTE => true | _ => false end.
Definition is_into k := match k with Into => true | _ => false end.
Definition is_limit k := match k with Limit => true | _ => false end.
Definition is_group k := match k with Group => true | _ => false end.
Definition is_where k := match k with Where => true | _ => false end.
Definition is_delete k := match k with Delete => true | _ => false end.
Definition is_update k := match k with Update => true | _ => false end.


(* ------------------------------------------------------------------ *)
(** ** policy/_types.py and policy/classify.py *)

Inductive StatementType := READ | DML | DDL | ADMIN | UNKNOWN.

Definition StatementType_value (t : StatementType) : string :=
  match t with
  | READ => "read" | DML => "dml" | DDL => "ddl"
  | ADMIN => "admin" | UNKNOWN => "unknown"
  end.

(** [_READ_TYPES], [_DML_TYPES], [_DDL_TYPES], [_BLOCKED_TYPES] *)
Definition is_read_type k :=
  match k with Select | Union | Intersect | Except => true | _ => false end.
Definition is_dml_type k :=
  match k with Insert | Update | Delete | Merge => true | _ => false end.
Definition is_ddl_type k :=
  match k with Create | Drop | Alter | TruncateTable => true | _ => false end.
Definition is_blocked_type k :=
  match k with Grant | Copy | Command => true | _ => false end.

Definition _has_dml_in_cte (statement : Expression) : bool :=
  existsb (fun cte => match this cte with
                      | Some body => is_dml_type (kind_of body)
                      | None => false
                      end)
          (find_all is_cte statement).

Definition _has_into (statement : Expression) : bool :=
  is_select (kind_of statement)
  && match find is_into statement with Some _ => true | None => false end.

Definition classify (statement : Expression) : StatementType :=
  if is_blocked_type (kind_of statement) then ADMIN
  else if is_read_type (kind_of statement) then
    if _has_dml_in_cte statement then DML
    else if _has_into statement then DDL
    else READ
  else if is_dml_type (kind_of statement) then DML
  else if is_ddl_type (kind_of statement) then DDL
  else UNKNOWN.

Definition StatementType_eqb (a b : StatementType) : bool :=
  match a, b with
  | READ, READ | DML, DML | DDL, DDL | ADMIN, ADMIN | UNKNOWN, UNKNOWN => true
  | _, _ => false
  end.

(* ------------------------------------------------------------------ *)
(** ** diagnostics/codes.py

    The module [codes] as a namespace: attribute access on a name the
    module does not define raises [AttributeError]. *)

Record DiagnosticCode := mkCode { code_value : Z }.

Definition SYNTAX_ERROR := mkCode 1.
Definition TABLE_NOT_FOUND := mkCode 101.
Definition COLUMN_NOT_FOUND := mkCode 102.
Definition AMBIGUOUS_COLUMN := mkCode 103.
Definition DELETE_WITHOUT_WHERE := mkCode 201.
Definition MULTIPLE_STATEMENTS := mkCode 202.
Definition UPDATE_WITHOUT_WHERE := mkCode 203.
Definition CROSS_JOIN_NO_CONDITION := mkCode 204.
Definition CONSTANT_CONDITION := mkCode 205.
Definition WRITE_BLOCKED := mkCode 301.
Definition DDL_BLOCKED := mkCode 302.
Definition COST_OVER_THRESHOLD := mkCode 401.
Definition FULL_TABLE_SCAN := mkCode 402.
Definition VALUE_NOT_IN_COLUMN := mkCode 501.
Definition TYPE_MISMATCH := mkCode 502.
Definition LIMIT_INJECTED := mkCode 601.
Definition SELECT_STAR_EXPANDED := mkCode 602.

Definition codes_attrs : list (string * DiagnosticCode) :=
  [("SYNTAX_ERROR", SYNTAX_ERROR); ("TABLE_NOT_FOUND", TABLE_NOT_FOUND);
   ("COLUMN_NOT_FOUND", COLUMN_NOT_FOUND); ("AMBIGUOUS_COLUMN", AMBIGUOUS_COLUMN);
   ("DELETE_WITHOUT_WHERE", DELETE_WITHOUT_WHERE);
   ("MULTIPLE_STATEMENTS", MULTIPLE_STATEMENTS);
   ("UPDATE_WITHOUT_WHERE", UPDATE_WITHOUT_WHERE);
   ("CROSS_JOIN_NO_CONDITION", CROSS_JOIN_NO_CONDITION);
   ("CONSTANT_CONDITION", CONSTANT_CONDITION);
   ("WRITE_BLOCKED", WRITE_BLOCKED); ("DDL_BLOCKED", DDL_BLOCKED);
   ("COST_OVER_THRESHOLD", COST_OVER_THRESHOLD);
   ("FULL_TABLE_SCAN", FULL_TABLE_SCAN);
   ("VALUE_NOT_IN_COLUMN", VALUE_NOT_IN_COLUMN); ("TYPE_MISMATCH", TYPE_MISMATCH);
   ("LIMIT_INJECTED", LIMIT_INJECTED);
   ("SELECT_STAR_EXPANDED", SELECT_STAR_EXPANDED)].

(** [codes.<name>] *)
Definition codes_getattr (name : string) : py DiagnosticCode :=
  match List.find (fun p => String.eqb (fst p) name) codes_attrs with
  | Some (_, c) => Ok c
  | None => Raise (AttributeError
      ("module 'dbastion.diagnostics.codes' has no attribute '" ++ name ++ "'"))
  end.

Definition code_eqb (a b : DiagnosticCode) : bool :=
  Z.eqb (code_value a) (code_value b).

(* ------------------------------------------------------------------ *)
(** ** diagnostics/types.py *)

Inductive Level := INFO | WARNING | ERROR.

Inductive Applicability := MACHINE_APPLICABLE | MAYBE_INCORRECT | HAS_PLACEHOLDERS.

Record Span := mkSpan { span_start : Z; span_end : Z }.

Inductive SpanKind := PRIMARY | SECONDARY.

Record SpanLabel := mkSpanLabel
  { sl_span : Span; sl_kind : SpanKind; sl_label : option string }.

Record SubstitutionPart := mkPart { part_span : Span; replacement : string }.

Record Suggestion := mkSuggestion
  { sug_message : string; parts : list SubstitutionPart;
    applicability : Applicability }.

Record Diagnostic := mkDiagnostic
  { level : Level; code : DiagnosticCode; message : string;
    spans : list SpanLabel; notes : list string; suggestions : list Suggestion }.

Module Diag.
Definition make (l : Level) (c : DiagnosticCode) (m : string) : Diagnostic :=
  mkDiagnostic l c m [] [] [].
Definition error := make ERROR.
Definition warning := make WARNING.
Definition info := make INFO.

(** The chain methods append to a list of a freshly built record; they are
    functional updates here. *)
Definition span (d : Diagnostic) (s : Span) (lbl : string) : Diagnostic :=
  mkDiagnostic (level d) (code d) (message d)
    (spans d ++ [mkSpanLabel s PRIMARY (Some lbl)]) (notes d) (suggestions d).
Definition note (d : Diagnostic) (n : string) : Diagnostic :=
  mkDiagnostic (level d) (code d) (message d) (spans d) (notes d ++ [n])
    (suggestions d).
Definition add_suggestion (d : Diagnostic) (s : Suggestion) : Diagnostic :=
  mkDiagnostic (level d) (code d) (message d) (spans d) (notes d)
    (suggestions d ++ [s]).
Definition fix' (d : Diagnostic) (m : string) (s : Span) (r : string) :=
  add_suggestion d (mkSuggestion m [mkPart s r] MACHINE_APPLICABLE).
Definition suggest (d : Diagnostic) (m : string) (s : Span) (r : string) :=
  add_suggestion d (mkSuggestion m [mkPart s r] MAYBE_INCORRECT).
Definition suggest_template (d : Diagnostic) (m : string) :=
  add_suggestion d (mkSuggestion m [] HAS_PLACEHOLDERS).
End Diag.

Definition is_blocking (d : Diagnostic) : bool :=
  match level d with ERROR => true | _ => false end.

Definition is_machine_applicable (a : Applicability) : bool :=
  match a with MACHINE_APPLICABLE => true | _ => false end.

Definition auto_fixable_suggestions (d : Diagnostic) : list Suggestion :=
  filter (fun s => is_machine_applicable (applicability s)) (suggestions d).

Record DiagnosticResult := mkResult
  { original_sql : string; healed_sql : option string;
    diagnostics : list Diagnostic; blocked : bool;
    tables : list string; classification : option string }.

Definition effective_sql (r : DiagnosticResult) : string :=
  match healed_sql r with Some h => h | None => original_sql r end.

Definition has_code (c : DiagnosticCode) (ds : list Diagnostic) : bool :=
  existsb (fun d => code_eqb (code d) c) ds.

(* ------------------------------------------------------------------ *)
(** ** The parser library interface (sqlglot) *)

Class Sqlglot := {
  (** [sqlglot.parse(sql)]: one entry per [;]-separated chunk; [None] for an
      empty chunk (e.g. after a trailing semicolon) *)
  sqlglot_parse : string -> sresult (list (option Expression));
  (** [sqlglot.parse_one(sql, dialect=...)] *)
  sqlglot_parse_one : option string -> string -> sresult Expression;
  (** [expression.sql(dialect=...)] *)
  expression_sql : option string -> Expression -> string
}.

(** [Expression.set(key, value)]: replace the entry for [key] or add it. *)
Fixpoint set_arg (key : string) (v : Expression)
    (args : list (string * Expression)) : list (string * Expression) :=
  match args with
  | [] => [(key, v)]
  | (k, w) :: r =>
      if String.eqb k key then (k, v) :: r else (k, w) :: set_arg key v r
  end.

(** [Select.limit(n)]: a copy whose [limit] arg is [Limit(expression=n)]. *)
Definition select_limit (statement : Expression) (n : Z) : Expression :=
  match statement with
  | Node k args =>
      Node k (set_arg "limit"
                (Node Limit [("expression", Node (Literal false (z_to_str n)) [])])
                args)
  end.



Definition is_some {A} (o : option A) : bool :=
  match o with Some _ => true | None => false end.

Section Pipeline.
Context `{SG : Sqlglot}.

(** [policy/tables.py: extract_tables]: scope analysis of sqlglot with a
    fallback walk; no property below depends on the table list. *)
Variable extract_tables : Expression -> list string.

(* ------------------------------------------------------------------ *)
(** ** policy/safety.py *)

Definition check_multiple_statements (sql : string) : option Diagnostic :=
  match sqlglot_parse sql with
  | SErr _ => None                       (* except sqlglot.errors.SqlglotError *)
  | SOk statements =>
      let statements := filter is_some statements in
      if (Z.of_nat (length statements) <=? 1) then None
      else
        let semi_pos := let p := py_find sql ";" in
                        if p =? -1 then py_len sql / 2 else p in
        Some (Diag.note
                (Diag.note
                   (Diag.span (Diag.error MULTIPLE_STATEMENTS "multiple statements detected")
                      (mkSpan semi_pos (semi_pos + 1)) "second statement starts here")
                   "only single statements are allowed (possible SQL injection)")
                "split into separate dbastion query calls if intentional")
  end.




Definition check_delete_without_where (statement : Expression) (sql : string)
  : option Diagnostic :=
  if negb (is_delete (kind_of statement)) then None
  else match find is_where statement with
       | Some _ => None
       | None =>
           Some (Diag.suggest_template
                   (Diag.note (Diag.error DELETE_WITHOUT_WHERE "DELETE without WHERE clause")
                      "this would affect all rows in the table")
                   "add a WHERE clause: DELETE FROM ... WHERE <condition>")
       end.

Definition check_update_without_where (statement : Expression) (sql : string)
  : option Diagnostic :=
  if negb (is_update (kind_of statement)) then None
  else match find is_where statement with
       | Some _ => None
       | None =>
           Some (Diag.suggest_template
                   (Diag.note (Diag.error UPDATE_WITHOUT_WHERE "UPDATE without WHERE clause")
                      "this would affect all rows in the table")
                   "add a WHERE clause: UPDATE ... SET ... WHERE <condition>")
       end.

(* ------------------------------------------------------------------ *)
(** ** policy/enrich.py *)


Definition inject_limit (statement : Expression) (limit : Z)
  : Expression * option Diagnostic :=
  if negb (is_select (kind_of statement)) then (statement, None)
  else if is_some (find is_limit statement) then (statement, None)
  else if is_some (find is_group statement) then (statement, None)
  else
    (select_limit statement limit,
     Some (Diag.note (Diag.info LIMIT_INJECTED
                        ("LIMIT " ++ z_to_str limit ++ " added to unbounded SELECT"))
             "override with --no-limit or --limit N")).

(* ------------------------------------------------------------------ *)
(** ** policy/__init__.py: run_policy *)

Definition access_control (stmt_type : StatementType) (allow_write : bool)
  : list Diagnostic :=
  if StatementType_eqb stmt_type DML && negb allow_write then
    [Diag.note (Diag.error WRITE_BLOCKED "write operation blocked")
       "pass --allow-write to enable DML operations"]
  else if StatementType_eqb stmt_type DDL && negb allow_write then
    [Diag.note (Diag.error DDL_BLOCKED "DDL operation blocked")
       "pass --allow-write to enable DDL operations"]
  else [].

Definition safety_checks (statement : Expression) (sql : string) : list Diagnostic :=
  flat_map (fun check => match check statement sql with
                         | Some d => [d]
                         | None => []
                         end)
           [check_delete_without_where; check_update_without_where].

Definition any_blocking (ds : list Diagnostic) : bool := existsb is_blocking ds.

Definition run_policy (sql : string) (dialect : option string) (allow_write : bool)
    (limit : option Z) : py DiagnosticResult :=
  let sql := py_strip sql in
  (* Step 1 *)
  match check_multiple_statements sql with
  | Some multi_diag => Ok (mkResult sql None [multi_diag] true [] None)
  | None =>
  (* Step 2: only ParseError is caught *)
  match sqlglot_parse_one dialect sql with
  | SErr (ParseError e) =>
      Ok (mkResult sql None [Diag.error SYNTAX_ERROR ("SQL syntax error: " ++ e)] true [] None)
  | SErr e => Raise (SqlglotExn e)
  | SOk statement =>
  (* Steps 3-5 *)
  let tables := extract_tables statement in
  let stmt_type := classify statement in
  let diagnostics := app (access_control stmt_type allow_write) (safety_checks statement sql) in
  (* Step 6 *)
  let blocked := any_blocking diagnostics in
  let '(healed_sql, diagnostics) :=
    match negb blocked && StatementType_eqb stmt_type READ, limit with
    | true, Some n =>
        match inject_limit statement n with
        | (statement', Some limit_diag) =>
            (Some (expression_sql dialect statement'), app diagnostics [limit_diag])
        | (_, None) => (None, diagnostics)
        end
    | _, _ => (None, diagnostics)
    end in
  Ok (mkResult sql healed_sql diagnostics (any_blocking diagnostics) tables None)
  end
  end.

(** The keyword parameters [run_policy] declares; a call passing another
    keyword raises [TypeError]. *)
Definition run_policy_kwargs : list string := ["dialect"; "allow_write"; "limit"].

Definition call_run_policy (sql : string) (dialect : option string) (allow_write : bool)
    (limit : option Z) (extra_kwargs : list string) : py DiagnosticResult :=
  match filter (fun k => negb (existsb (String.eqb k) run_policy_kwargs)) extra_kwargs with
  | [] => run_policy sql dialect allow_write limit
  | k :: _ => Raise (TypeError
      ("run_policy() got an unexpected keyword argument '" ++ k ++ "'"))
  end.

End Pipeline.

(* ------------------------------------------------------------------ *)
(** ** diagnostics/types.py: apply_fixes *)

Definition part_start (p : SubstitutionPart) : Z := span_start (part_span p).
Definition part_end (p : SubstitutionPart) : Z := span_end (part_span p).

(** The parts of every MachineApplicable suggestion, in diagnostic order. *)
Definition gather_parts (diagnostics : list Diagnostic) : list SubstitutionPart :=
  flat_map (fun d => flat_map parts (auto_fixable_suggestions d)) diagnostics.

(** [list.sort(key=lambda p: p.span.start, reverse=True)]: a stable sort on
    descending start (parts with equal starts keep their order). *)
Fixpoint insert_desc (x : SubstitutionPart) (l : list SubstitutionPart)
  : list SubstitutionPart :=
  match l with
  | [] => [x]
  | y :: r => if part_start y <=? part_start x then x :: l else y :: insert_desc x r
  end.

Definition sort_desc (l : list SubstitutionPart) : list SubstitutionPart :=
  fold_right insert_desc [] l.

(** [for i in range(len(parts) - 1): if parts[i+1].span.end > parts[i].span.start]
    rejects; this is the loop's success condition. *)
Fixpoint adjacent_ok (l : list SubstitutionPart) : bool :=
  match l with
  | x :: ((y :: _) as r) => (part_end y <=? part_start x) && adjacent_ok r
  | _ => true
  end.

Definition splice (result : string) (part : SubstitutionPart) : string :=
  py_prefix result (part_start part) ++ replacement part
  ++ py_suffix result (part_end part).

Definition apply_fixes (sql : string) (diagnostics : list Diagnostic) : option string :=
  match gather_parts diagnostics with
  | [] => None
  | ps =>
      let ps := sort_desc ps in
      if adjacent_ok ps then Some (fold_left splice ps sql) else None
  end.

(** Two spans overlap when each starts before the other ends. *)
Definition overlap (p q : SubstitutionPart) : Prop :=
  part_start p < part_end q /\ part_start q < part_end p.

(* ------------------------------------------------------------------ *)
(** ** adapters/cost.py: check_cost_threshold

    Floats are rationals. The diagnostic messages of the breaches format the
    observed and limit values; only their fixed words are kept here. *)

Record CostEstimate := mkEstimate
  { estimated_cost_usd : option Q; estimated_gb : option Q;
    estimated_rows : option Q; est_warnings : list string }.

Definition Qgt_bool (x y : Q) : bool := negb (Qle_bool x y).

(** [estimate.<field>] where the caller may pass [None]. *)
Definition est_attr (estimate : option CostEstimate) (name : string)
    (f : CostEstimate -> option Q) : py (option Q) :=
  match estimate with
  | Some e => Ok (f e)
  | None => Raise (AttributeError ("'NoneType' object has no attribute '" ++ name ++ "'"))
  end.

(** [threshold is not None and estimate.f is not None and estimate.f > threshold],
    evaluated left to right with short-circuit. *)
Definition exceeds (estimate : option CostEstimate) (threshold : option Q)
    (name : string) (f : CostEstimate -> option Q) : py bool :=
  match threshold with
  | None => Ok false
  | Some t =>
      v <- est_attr estimate name f ;;
      match v with
      | None => Ok false
      | Some x => Ok (Qgt_bool x t)
      end
  end.

Definition check_cost_threshold (estimate : option CostEstimate)
    (max_gb max_usd max_rows : option Q) : py (option Diagnostic) :=
  gb <- exceeds estimate max_gb "estimated_gb" estimated_gb ;;
  if gb then Ok (Some (Diag.error COST_OVER_THRESHOLD "query would scan GB over the limit"))
  else
  usd <- exceeds estimate max_usd "estimated_cost_usd" estimated_cost_usd ;;
  if usd then Ok (Some (Diag.error COST_OVER_THRESHOLD "query cost exceeds limit"))
  else
  rows <- exceeds estimate max_rows "estimated_rows" estimated_rows ;;
  if rows then Ok (Some (Diag.error COST_OVER_THRESHOLD "query estimates rows over the limit"))
  else Ok None.

(* ------------------------------------------------------------------ *)
(** ** cli/query.py and cli/exec.py

    What an invocation of [_run_query] / [_run_exec] ends in: the exit code it
    returns, the [decision] key of the emitted envelope ([None] when the
    envelope has none), the diagnostic codes it reports, and whether
    [adapter.execute] ran. The adapter's dry-run answer is an input. Log
    appends are omitted. *)

Record Outcome := mkOutcome
  { exit_code : Z; decision : option string;
    reported_codes : list DiagnosticCode; executed : bool }.

Definition policy_codes (r : DiagnosticResult) : list DiagnosticCode :=
  map code (diagnostics r).

(** [_run_query] after its step 1. *)
Definition query_after_policy (policy_result : DiagnosticResult)
    (dry_run_only skip_dry_run : bool) (max_gb max_usd max_rows : option Q)
    (dry_run : option CostEstimate) : py Outcome :=
  if blocked policy_result then
    Ok (mkOutcome 1 None (policy_codes policy_result) false)
  else
    cost_diag <- (if negb skip_dry_run || dry_run_only
                  then check_cost_threshold dry_run max_gb max_usd max_rows
                  else Ok None) ;;
    match cost_diag with
    | Some d => Ok (mkOutcome 1 None (app (policy_codes policy_result) [code d]) false)
    | None =>
        if dry_run_only then Ok (mkOutcome 0 None (policy_codes policy_result) false)
        else Ok (mkOutcome 0 None (policy_codes policy_result) true)
    end.

(** [_run_exec] after its step 1. *)
Definition exec_after_policy (policy_result : DiagnosticResult)
    (skip_dry_run : bool) (max_gb max_usd max_rows : option Q)
    (dry_run : option CostEstimate) : py Outcome :=
  let is_read := match classification policy_result with
                 | Some c => String.eqb c "read"
                 | None => false
                 end in
  if is_read then Ok (mkOutcome 1 (Some "deny") [] false)
  else if blocked policy_result then
    Ok (mkOutcome 1 (Some "deny") (policy_codes policy_result) false)
  else
    let has_cost_thresholds := is_some max_gb || is_some max_usd || is_some max_rows in
    cost_diag <- (if negb skip_dry_run then
                    match dry_run with
                    | Some estimate =>
                        check_cost_threshold (Some estimate) max_gb max_usd max_rows
                    | None =>
                        if has_cost_thresholds then
                          Ok (Some (Diag.error COST_OVER_THRESHOLD
                            ("cost thresholds requested but database cannot estimate "
                             ++ "cost for this statement type")))
                        else Ok None
                    end
                  else Ok None) ;;
    match cost_diag with
    | Some d => Ok (mkOutcome 1 (Some "deny") (app (policy_codes policy_result) [code d]) false)
    | None => Ok (mkOutcome 0 (Some "allow") (policy_codes policy_result) true)
    end.

Section Cli.
Context `{SG : Sqlglot}.
Variable extract_tables : Expression -> list string.

(** Both commands pass the adapter's blocklist to [run_policy] as the
    keyword argument [dangerous_functions]. *)
Definition _run_query (sql : string) (dry_run_only skip_dry_run : bool)
    (dialect : option string) (allow_write : bool) (limit : option Z)
    (max_gb max_usd max_rows : option Q) (dry_run : option CostEstimate) : py Outcome :=
  policy_result <- call_run_policy extract_tables sql dialect allow_write limit
                     ["dangerous_functions"] ;;
  query_after_policy policy_result dry_run_only skip_dry_run max_gb max_usd max_rows dry_run.

Definition _run_exec (sql : string) (skip_dry_run : bool) (dialect : option string)
    (limit : option Z) (max_gb max_usd max_rows : option Q)
    (dry_run : option CostEstimate) : py Outcome :=
  policy_result <- call_run_policy extract_tables sql dialect true limit
                     ["dangerous_functions"] ;;
  exec_after_policy policy_result skip_dry_run max_gb max_usd max_rows dry_run.

End Cli.

(* ------------------------------------------------------------------ *)
(** ** querylog.py: cleanup_old_logs

    The project's log directory is a flag (does it exist) and the names of
    the files it holds. Instants are UTC microseconds since the epoch,
    [datetime]'s resolution. *)

Record LogDir := mkLogDir { dir_exists : bool; dir_files : list string }.

Definition DEFAULT_RETENTION_DAYS : Z := 30.

Definition MICROS_PER_DAY : Z := 86400 * 1000000.

(** [datetime.min] (0001-01-01T00:00:00) and [datetime.max]
    (9999-12-31T23:59:59.999999), UTC, as microseconds since the epoch:
    0001-01-01 is 719162 days before 1970-01-01 and 9999-12-31 is 2932896
    days after it. *)
Definition DATETIME_MIN : Z := -719162 * MICROS_PER_DAY.
Definition DATETIME_MAX : Z := 2932897 * MICROS_PER_DAY - 1.

(** [timedelta(days=n)]: [OverflowError] when [|n| > 999999999].
    [datetime - timedelta]: [OverflowError] when the result leaves
    [datetime.min .. datetime.max]. *)
Definition timedelta_days (days : Z) : py Z :=
  if 999999999 <? Z.abs days
  then Raise (OverflowError ("days=" ++ z_to_str days ++ "; must have magnitude <= 999999999"))
  else Ok (days * MICROS_PER_DAY).

Definition datetime_sub (t : Z) (delta : py Z) : py Z :=
  dt <- delta ;;
  let r := t - dt in
  if (r <? DATETIME_MIN) || (DATETIME_MAX <? r)
  then Raise (OverflowError "date value out of range")
  else Ok r.

Fixpoint ends_with (suffix s : string) : bool :=
  String.eqb s suffix || match s with
                        | EmptyString => false
                        | String _ r => ends_with suffix r
                        end.

(** [log_dir.glob("*.jsonl")] *)
Definition glob_jsonl (name : string) : bool := ends_with ".jsonl" name.

(** [str.rfind(".")] *)
Fixpoint rfind_dot_aux (s : string) (i : Z) (best : Z) : Z :=
  match s with
  | EmptyString => best
  | String c r => rfind_dot_aux r (i + 1) (if Ascii.eqb c "." then i else best)
  end.

(** [PurePath.stem]: the name without its last suffix, where a leading dot
    or a trailing dot does not start a suffix. *)
Definition stem (name : string) : string :=
  let i := rfind_dot_aux name 0 (-1) in
  if (0 <? i) && (i <? py_len name - 1) then py_prefix name i else name.

Section Querylog.
(** [datetime.strptime(stem, "%Y-%m-%d").replace(tzinfo=UTC)]: the instant
    of the parsed date's midnight, or [None] where strptime raises
    [ValueError]. *)
Variable strptime_ymd : string -> option Z.

(** One iteration of the loop: [deleted] and the directory's files. *)
Definition cleanup_step (cutoff : Z) (st : Z * list string) (log_file : string)
  : Z * list string :=
  let '(deleted, files) := st in
  match strptime_ymd (stem log_file) with
  | None => (deleted, files)                              (* except ValueError: continue *)
  | Some file_date =>
      if file_date <? cutoff
      then (deleted + 1, filter (fun f => negb (String.eqb f log_file)) files)
      else (deleted, files)
  end.

Definition cleanup_old_logs (retention_days : Z) (now : Z) (d : LogDir) : py (Z * LogDir) :=
  cutoff <- datetime_sub now (timedelta_days retention_days) ;;
  if negb (dir_exists d) then Ok (0, d)
  else
    let '(deleted, files) :=
      fold_left (cleanup_step cutoff) (filter glob_jsonl (dir_files d)) (0, dir_files d) in
    (* log_dir.rmdir() succeeds only on an empty directory; OSError suppressed *)
    match files with
    | [] => Ok (deleted, mkLogDir false [])
    | _ => Ok (deleted, mkLogDir true files)
    end.

End Querylog.

(* ------------------------------------------------------------------ *)
(** ** Concrete statements and a sqlglot stand-in

    Trees as sqlglot builds them for a few inputs, and a [Sqlglot] instance
    that answers as sqlglot does on those inputs: [toy_parse_one] returns
    the catalogued tree, raises [TokenError] on an unterminated string
    literal and [ParseError] on anything else; [toy_sql] prints the select
    fragment used here. *)

Definition star : Expression := Node (Other "Star") [].
Definition tbl (n : string) : Expression := Node From [("this", Node (Table n) [])].

(** [SELECT * FROM (SELECT * INTO x FROM t)] *)
Definition nested_into_stmt : Expression :=
  Node Select [("expressions", star);
               ("from", Node From [("this", Node Subquery [("this",
                  Node Select [("expressions", star);
                               ("into", Node Into [("this", Node (Table "x") [])]);
                               ("from", tbl "t")])])])].

(** [WITH d AS (DELETE FROM t WHERE id=1 RETURNING * ) SELECT * FROM d] *)
Definition writable_cte_stmt : Expression :=
  Node Select [("expressions", star); ("from", tbl "d");
               ("with", Node (Other "With") [("expressions",
                  Node CTE [("this", Node Delete [("this", Node (Table "t") []);
                                                  ("where", Node Where [])]);
                            ("alias", Node (Other "d") [])])])].

(** [SELECT id FROM users] *)
Definition select_id_users : Expression :=
  Node Select [("expressions", Node (Column "id") []); ("from", tbl "users")].

(** [SELECT 1] and [DROP TABLE users] *)
Definition select_one : Expression :=
  Node Select [("expressions", Node (Literal false "1") [])].
Definition drop_users : Expression :=
  Node Drop [("this", Node (Table "users") []); ("kind", Node (Other "TABLE") [])].

(** [SELECT 1 UNION SELECT 2] *)
Definition union_stmt : Expression :=
  Node Union [("this", select_one);
              ("expression", Node Select [("expressions", Node (Literal false "2") [])])].

(** [GRANT SELECT ON users TO readonly_role] *)
Definition grant_stmt : Expression :=
  Node Grant [("privileges", Node (Other "GrantPrivilege") []);
              ("securable", Node (Table "users") []);
              ("principals", Node (Other "GrantPrincipal") [])].

(** [DO $$ BEGIN RAISE NOTICE 'hi'; END $$]: an opaque [exp.Command] *)
Definition do_command : Expression :=
  Node Command [("this", Node (Literal true "DO") [])].

(** [SELECT pg_terminate_backend(1)]: an anonymous function call *)
Definition pg_terminate_stmt : Expression :=
  Node Select [("expressions", Node (Anonymous "pg_terminate_backend")
                                 [("expressions", Node (Literal false "1") [])])].

(** [DELETE FROM t WHERE id=1] *)
Definition delete_where_stmt : Expression :=
  Node Delete [("this", Node (Table "t") []);
               ("where", Node Where [("this", Node (Other "EQ") [])])].

Definition single_catalogue : list (string * Expression) :=
  [("SELECT * FROM (SELECT * INTO x FROM t)", nested_into_stmt);
   ("SELECT id FROM users", select_id_users);
   ("SELECT id FROM users LIMIT 1000", select_limit select_id_users 1000);
   ("SELECT 1", select_one);
   ("SELECT 1 UNION SELECT 2", union_stmt);
   ("GRANT SELECT ON users TO readonly_role", grant_stmt);
   ("DO $$ BEGIN RAISE NOTICE 'hi'; END $$", do_command);
   ("SELECT pg_terminate_backend(1)", pg_terminate_stmt);
   ("DELETE FROM t WHERE id=1", delete_where_stmt)].

Definition multi_catalogue : list (string * list (option Expression)) :=
  [("SELECT 1; DROP TABLE users", [Some select_one; Some drop_users]);
   ("SELECT 1;", [Some select_one; None]);
   ("SELECT 1;;", [Some select_one; None; None])].

Fixpoint str_lookup {A} (k : string) (l : list (string * A)) : option A :=
  match l with
  | [] => None
  | (k', v) :: r => if String.eqb k k' then Some v else str_lookup k r
  end.

Fixpoint count_quotes (s : string) : nat :=
  match s with
  | EmptyString => O
  | String c r => (if Ascii.eqb c "'" then 1 else 0) + count_quotes r
  end.

Definition unterminated_string (s : string) : bool := Nat.odd (count_quotes s).

Definition toy_parse_one (dialect : option string) (sql : string) : sresult Expression :=
  if unterminated_string sql then SErr (TokenError "Missing ' from 1:8")
  else match str_lookup sql single_catalogue with
       | Some e => SOk e
       | None =>
           match str_lookup sql multi_catalogue with
           | Some (Some e :: _) => SOk e
           | _ => SErr (ParseError "Invalid expression / Unexpected token.")
           end
       end.

Definition toy_parse (sql : string) : sresult (list (option Expression)) :=
  match str_lookup sql multi_catalogue with
  | Some l => SOk l
  | None =>
      match toy_parse_one None sql with
      | SOk e => SOk [Some e]
      | SErr e => SErr e
      end
  end.

Definition print_atom (e : Expression) : string :=
  match kind_of e with
  | Column n | Table n => n
  | Literal true v => "'" ++ v ++ "'"
  | Literal false v => v
  | _ => "*"
  end.

Definition toy_sql (dialect : option string) (e : Expression) : string :=
  let a := args_of e in
  "SELECT "
  ++ match arg_lookup "expressions" a with Some x => print_atom x | None => "*" end
  ++ match arg_lookup "from" a with
     | Some f => match this f with Some t => " FROM " ++ print_atom t | None => "" end
     | None => ""
     end
  ++ match arg_lookup "limit" a with
     | Some l => match arg l "expression" with
                 | Some x => " LIMIT " ++ print_atom x
                 | None => ""
                 end
     | None => ""
     end.

#[export] Instance toy_sqlglot : Sqlglot := {|
  sqlglot_parse := toy_parse;
  sqlglot_parse_one := toy_parse_one;
  expression_sql := toy_sql
|}.

Definition no_tables (e : Expression) : list string := [].

(** What the commands' call of [run_policy] raises. *)
Definition unexpected_dangerous_kwarg : exn :=
  TypeError "run_policy() got an unexpected keyword argument 'dangerous_functions'".


(** A [strptime("%Y-%m-%d")] stand-in for zero-padded dates: the UTC
    midnight of the date in microseconds. *)
Definition digit_val (c : ascii) : option Z :=
  let n := Z.of_nat (nat_of_ascii c) in
  if (48 <=? n) && (n <=? 57) then Some (n - 48) else None.

Fixpoint digits_val (l : list ascii) (acc : Z) : option Z :=
  match l with
  | [] => Some acc
  | c :: r => match digit_val c with
              | Some v => digits_val r (acc * 10 + v)
              | None => None
              end
  end.

Definition is_leap (y : Z) : bool :=
  (Z.eqb (y mod 4) 0 && negb (Z.eqb (y mod 100) 0)) || Z.eqb (y mod 400) 0.

Definition days_in_month (y m : Z) : Z :=
  if Z.eqb m 2 then (if is_leap y then 29 else 28)
  else if existsb (Z.eqb m) [4; 6; 9; 11] then 30 else 31.

(** Days from 1970-01-01 to a proleptic Gregorian date. *)
Definition days_from_civil (y m d : Z) : Z :=
  let y' := if m <=? 2 then y - 1 else y in
  let era := y' / 400 in
  let yoe := y' - era * 400 in
  let mp := (m + 9) mod 12 in
  let doy := (153 * mp + 2) / 5 + d - 1 in
  let doe := yoe * 365 + yoe / 4 - yoe / 100 + doy in
  era * 146097 + doe - 719468.

Definition ymd_strptime (s : string) : option Z :=
  match list_ascii_of_string s with
  | [y1; y2; y3; y4; "-"%char; m1; m2; "-"%char; d1; d2] =>
      match digits_val [y1; y2; y3; y4] 0, digits_val [m1; m2] 0, digits_val [d1; d2] 0 with
      | Some y, Some m, Some d =>
          if (1 <=? y) && (1 <=? m) && (m <=? 12) && (1 <=? d) && (d <=? days_in_month y m)
          then Some (days_from_civil y m d * MICROS_PER_DAY) else None
      | _, _, _ => None
      end
  | _ => None
  end.

(* ------------------------------------------------------------------ *)
(** ** diagnostics/types.py: Span and the DiagnosticResult queries *)

(** [s[a:b]] with Python's clamping of out-of-range and negative indices. *)
Definition py_slice (s : string) (a b : Z) : string :=
  let i := py_index s a in
  let j := py_index s b in
  substring i (j - i) s.

(** [Span.slice] *)
Definition Span_slice (sp : Span) (sql : string) : string :=
  py_slice sql (span_start sp) (span_end sp).

(** [len(span)]: [Span.__len__] returns [end - start]; the builtin [len]
    raises [ValueError] on a negative result and [OverflowError] on one above
    [sys.maxsize]. [None] is the raised case. *)
Definition Span_len (sp : Span) : option Z :=
  let n := span_end sp - span_start sp in
  if (n <? 0) || (9223372036854775807 <? n) then None else Some n.

(** [Span.is_empty] *)
Definition Span_is_empty (sp : Span) : bool := span_start sp =? span_end sp.

(** [Level] is an [IntEnum]. *)
Definition Level_value (l : Level) : Z :=
  match l with INFO => 0 | WARNING => 1 | ERROR => 2 end.

(** [DiagnosticResult.max_level]: [max] keeps the first maximal element. *)
Definition max_level (r : DiagnosticResult) : option Level :=
  match diagnostics r with
  | [] => None
  | d :: ds =>
      Some (fold_left (fun m x => if Level_value m <? Level_value x then x else m)
              (map level ds) (level d))
  end.

(** [f"{value:04d}"]: zero padding to width 4, the sign counting in the
    width. *)
Fixpoint zeros (n : nat) : string :=
  match n with O => "" | S k => String "0" (zeros k) end.

Definition format_04d (v : Z) : string :=
  if v <? 0 then
    let s := z_to_str (- v) in "-" ++ zeros (3 - String.length s) ++ s
  else
    let s := z_to_str v in zeros (4 - String.length s) ++ s.

(** [DiagnosticCode.__str__] *)
Definition DiagnosticCode_str (c : DiagnosticCode) : string :=
  "Q" ++ format_04d (code_value c).

(** [DiagnosticResult.applied_fixes_summary] *)
Definition applied_fixes_summary (r : DiagnosticResult) : list string :=
  flat_map (fun d =>
    map (fun s => DiagnosticCode_str (code d) ++ ": " ++ sug_message s)
        (filter (fun s => is_machine_applicable (applicability s)) (suggestions d)))
    (diagnostics r).

(* ------------------------------------------------------------------ *)
(** ** diagnostics/render.py: render_text *)

(** [level.name.lower()] *)
Definition Level_name_lower (l : Level) : string :=
  match l with INFO => "info" | WARNING => "warning" | ERROR => "error" end.

Definition newline : string := String (ascii_of_nat 10) EmptyString.

(** The [lines] list [render_text] builds. *)
Definition render_text_lines (result : DiagnosticResult) : list string :=
  app (flat_map (fun d =>
         (Level_name_lower (level d) ++ "[" ++ DiagnosticCode_str (code d) ++ "]: "
          ++ message d)
         :: app (map (fun n => "  = note: " ++ n) (notes d))
                (map (fun s =>
                        "  = " ++ (if is_machine_applicable (applicability s)
                                   then "fix" else "help")
                        ++ ": " ++ sug_message s)
                     (suggestions d)))
       (diagnostics result))
      (match healed_sql result with
       | Some _ => [""; "effective SQL: " ++ effective_sql result]
       | None => []
       end).

(** [render_text]: ["\n".join(lines)] *)
Definition render_text (result : DiagnosticResult) : string :=
  String.concat newline (render_text_lines result).

(* ------------------------------------------------------------------ *)
(** ** cli/validate.py *)

Section Validate.
Context `{SG : Sqlglot}.
Variable extract_tables : Expression -> list string.

(** [validate]: the policy result and the exit status ([SystemExit(1)] when
    blocked, 0 otherwise); the printed output is omitted. *)
Definition validate (sql : string) (dialect : option string) (limit : Z)
    (allow_write : bool) : py (DiagnosticResult * Z) :=
  let effective_limit := if 0 <? limit then Some limit else None in
  result <- run_policy extract_tables sql dialect allow_write effective_limit ;;
  Ok (result, if blocked result then 1 else 0).

End Validate.

(* ------------------------------------------------------------------ *)
(** ** querylog.py: the log file's place *)

(** [str.replace(old, new)] for one-character arguments. *)
Definition py_replace_char (old new : ascii) (s : string) : string :=
  string_of_list_ascii
    (map (fun c => if Ascii.eqb c old then new else c) (list_ascii_of_string s)).

(** [str.lstrip(c)] for a one-character argument. *)
Fixpoint py_lstrip_char (c : ascii) (s : string) : string :=
  match s with
  | EmptyString => EmptyString
  | String d r => if Ascii.eqb d c then py_lstrip_char c r else s
  end.

(** [_project_slug] with [os.getcwd()] as an input. *)
Definition _project_slug (cwd : string) : string :=
  py_lstrip_char "-" (py_replace_char "/" "-" cwd).

(** The name of [_today_file()], with [strftime("%Y-%m-%d")] as an input. *)
Definition _today_file_name (today : string) : string := today ++ ".jsonl".

Fixpoint contains_char (c : ascii) (s : string) : bool :=
  match s with
  | EmptyString => false
  | String d r => Ascii.eqb d c || contains_char c r
  end.

(* ------------------------------------------------------------------ *)
(** ** cli/_shared.py: resolve_sql_stdin and parse_db

    click's exceptions are a family of their own. *)

Inductive click_exn :=
| UsageError (msg : string)
| BadParameter (msg : string) (param_hint : string).

Inductive click (A : Type) :=
| Done (a : A)
| ClickRaise (e : click_exn).
Arguments Done {A} a.
Arguments ClickRaise {A} e.

(** Python truthiness of [str | None]. *)
Definition truthy (s : option string) : bool :=
  match s with Some x => negb (String.eqb x "") | None => false end.

(** [resolve_sql_stdin] with [sys.stdin.isatty()] and [sys.stdin.read()] as
    inputs. *)
Definition resolve_sql_stdin (sql : option string) (from_stdin : bool)
    (stdin_isatty : bool) (stdin_text : string) : click string :=
  if truthy sql && from_stdin then
    ClickRaise (UsageError "Provide SQL as an argument or --from-stdin, not both.")
  else if from_stdin then
    if stdin_isatty then
      ClickRaise (UsageError "--from-stdin requires piped input (stdin is a terminal).")
    else
      let text := py_strip stdin_text in
      if String.eqb text "" then ClickRaise (UsageError "--from-stdin: stdin was empty.")
      else Done text
  else
    match sql with
    | Some s => if String.eqb s "" then
                  ClickRaise (UsageError "Missing argument 'SQL'. Provide SQL or use --from-stdin.")
                else Done s
    | None => ClickRaise (UsageError "Missing argument 'SQL'. Provide SQL or use --from-stdin.")
    end.

(** [adapters/_base.py: DatabaseType] *)
Inductive DatabaseType := POSTGRES | BIGQUERY | DUCKDB.

Definition DatabaseType_value (t : DatabaseType) : string :=
  match t with POSTGRES => "postgres" | BIGQUERY => "bigquery" | DUCKDB => "duckdb" end.

Definition DatabaseType_all : list DatabaseType := [POSTGRES; BIGQUERY; DUCKDB].

(** [DatabaseType(value)]: [None] where it raises [ValueError]. *)
Definition DatabaseType_of_value (s : string) : option DatabaseType :=
  List.find (fun t => String.eqb (DatabaseType_value t) s) DatabaseType_all.

(** [adapters/_base.py: ConnectionConfig]; a dict as an association list in
    insertion order. *)
Record ConnectionConfig := mkConfig
  { conn_name : string; db_type : DatabaseType; params : list (string * string) }.

(** [s.split(c)] for a one-character separator. *)
Fixpoint py_split (c : ascii) (s : string) : list string :=
  match s with
  | EmptyString => [""]
  | String d r =>
      let rest := py_split c r in
      if Ascii.eqb d c then "" :: rest
      else match rest with
           | x :: xs => String d x :: xs
           | [] => [String d ""]
           end
  end.

(** [s.split(c, 1)] unpacked into two names, for an [s] that contains [c]:
    [None] when [c] is absent (where the code raises before splitting). *)
Fixpoint py_split_once (c : ascii) (s : string) : option (string * string) :=
  match s with
  | EmptyString => None
  | String d r =>
      if Ascii.eqb d c then Some ("", r)
      else match py_split_once c r with
           | Some (a, b) => Some (String d a, b)
           | None => None
           end
  end.

(** [d[k] = v] on an insertion-ordered dict. *)
Fixpoint dict_set (k v : string) (d : list (string * string)) : list (string * string) :=
  match d with
  | [] => [(k, v)]
  | (k', v') :: r => if String.eqb k' k then (k, v) :: r else (k', v') :: dict_set k v r
  end.

(** The [for part in params_str.split(",")] loop. *)
Fixpoint parse_params (ps : list string) (acc : list (string * string))
  : click (list (string * string)) :=
  match ps with
  | [] => Done acc
  | part :: r =>
      match py_split_once "=" part with
      | None => ClickRaise (BadParameter ("Expected key=value pair, got '" ++ part ++ "'")
                                         "'--db'")
      | Some (k, v) => parse_params r (dict_set (py_strip k) (py_strip v) acc)
      end
  end.

Section Connections.
(** [connections.get_connection]: the named connections of
    [~/.dbastion/connections.toml]. *)
Variable get_connection : string -> option ConnectionConfig.

Definition parse_db (value : string) : click ConnectionConfig :=
  match get_connection value with
  | Some config => Done config
  | None =>
      match py_split_once ":" value with
      | None =>
          ClickRaise (BadParameter
            ("Connection '" ++ value ++ "' not found in ~/.dbastion/connections.toml "
             ++ "and not in 'type:key=val' format." ++ newline
             ++ "  Add it: dbastion connect add " ++ value ++ " <type> <param>=<val>")
            "'--db'")
      | Some (db_type_str, params_str) =>
          match DatabaseType_of_value db_type_str with
          | None =>
              ClickRaise (BadParameter
                ("Unknown database type '" ++ db_type_str ++ "'. Valid: "
                 ++ String.concat ", " (map DatabaseType_value DatabaseType_all))
                "'--db'")
          | Some t =>
              match (if String.eqb params_str "" then Done []
                     else parse_params (py_split "," params_str) []) with
              | ClickRaise e => ClickRaise e
              | Done ps => Done (mkConfig db_type_str t ps)
              end
          end
      end
  end.

End Connections.

(** The raw [--db] spelling of a type and key/value pairs. *)
Definition db_spec (t : DatabaseType) (kvs : list (string * string)) : string :=
  DatabaseType_value t ++ ":"
  ++ String.concat "," (map (fun kv => fst kv ++ "=" ++ snd kv) kvs).

(* ------------------------------------------------------------------ *)
(** ** Helpers for the properties below *)

(** One step of [max(d.level for d in diagnostics)]. *)
Definition max_step (m x : Level) : Level :=
  if Level_value m <? Level_value x then x else m.

(** The line prefix [render_text] gives a machine-applicable suggestion. *)
Definition fix_line_prefix : string := "  = fix: ".

(** The four digits after the [Q], read back. *)
Definition code_digits (s : string) : option Z :=
  digits_val (list_ascii_of_string (substring 1 4 s)) 0.

(** A string with no ["."] in it. *)
Fixpoint no_dot (s : string) : bool :=
  match s with
  | EmptyString => true
  | String c r => negb (Ascii.eqb c ".") && no_dot r
  end.

(** A character list that is empty or starts with a non-space. *)
Definition head_not_space (l : list ascii) : Prop :=
  match l with [] => True | c :: _ => py_isspace c = false end.

(** The result [run_policy] gives on a concrete input with the sqlglot
    stand-in. *)
Definition policy_result_of (sql : string) (d : option string) (aw : bool) (lim : option Z)
  : DiagnosticResult :=
  match run_policy no_tables sql d aw lim with
  | Ok r => r
  | Raise _ => mkResult sql None [] true [] None
  end.

Ltac close_rp :=
  repeat split; try reflexivity; try discriminate;
  try (intros Hx; exfalso; apply Hx; reflexivity);
  try (intros ? Hx; discriminate).

Ltac close_out :=
  repeat split; intros;
  repeat match goal with H : _ /\ _ |- _ => destruct H end;
  try discriminate; auto.

(* ================================================================== *)
(** * Properties *)

(** ** [str(n)]

    [z_to_str] prints every integer in full: distinct integers give
    distinct strings, and reading the digits back ([Z.of_int]) gives the
    integer. *)

Lemma uint_to_str_inj (u v : Decimal.uint) : uint_to_str u = uint_to_str v -> u = v.
Proof.
  revert v. induction u; destruct v; simpl; intros H; try discriminate; try reflexivity;
    injection H as H; f_equal; auto.
Qed.

Lemma uint_to_str_not_minus (u : Decimal.uint) (s : string) : uint_to_str u <> String "-" s.
Proof. destruct u; simpl; discriminate. Qed.

Lemma z_to_str_inj (a b : Z) : z_to_str a = z_to_str b -> a = b.
Proof.
  intros H. rewrite <- (DecimalZ.of_to a), <- (DecimalZ.of_to b). f_equal.
  unfold z_to_str in H.
  destruct (Z.to_int a) as [u|u], (Z.to_int b) as [v|v]; simpl in H.
  - now rewrite (uint_to_str_inj _ _ H).
  - exfalso. exact (uint_to_str_not_minus _ _ H).
  - exfalso. exact (uint_to_str_not_minus _ _ (eq_sym H)).
  - injection H as H. now rewrite (uint_to_str_inj _ _ H).
Qed.

Example z_to_str_examples :
  z_to_str 0 = "0" /\ z_to_str 1000 = "1000" /\ z_to_str (-42) = "-42" /\
  String.length (z_to_str (10 ^ 80)) = 81%nat /\
  String.length (z_to_str (- 10 ^ 200)) = 202%nat.
Proof. vm_compute. repeat split; reflexivity. Qed.

(** ** Tree search *)

Lemma find_all_In (p : kind -> bool) (e n : Expression) :
  In n (find_all p e) <-> In n (walk e) /\ p (kind_of n) = true.
Proof. unfold find_all. apply filter_In. Qed.

Lemma find_is_some (p : kind -> bool) (e : Expression) :
  is_some (find p e) = true <-> exists n, In n (walk e) /\ p (kind_of n) = true.
Proof.
  unfold find. split.
  - destruct (find_all p e) as [|n l] eqn:E; simpl; [discriminate|].
    intros _. exists n. apply find_all_In. rewrite E. now left.
  - intros [n Hn]. apply find_all_In in Hn.
    destruct (find_all p e); [contradiction | reflexivity].
Qed.

Lemma find_none (p : kind -> bool) (e : Expression) :
  find p e = None <-> forall n, In n (walk e) -> p (kind_of n) = false.
Proof.
  split.
  - intros H n Hin. destruct (p (kind_of n)) eqn:E; [|reflexivity].
    assert (is_some (find p e) = true) as H' by (apply find_is_some; eauto).
    rewrite H in H'. discriminate.
  - intros H. destruct (find p e) eqn:E; [|reflexivity].
    assert (is_some (find p e) = true) as H' by (rewrite E; reflexivity).
    apply find_is_some in H'. destruct H' as [n [Hin Hp]].
    rewrite (H n Hin) in Hp. discriminate.
Qed.

Lemma walk_self (e : Expression) : In e (walk e).
Proof. destruct e; simpl; now left. Qed.

Lemma has_dml_in_cte_iff (st : Expression) :
  _has_dml_in_cte st = true <->
  exists c b, In c (walk st) /\ kind_of c = CTE /\ this c = Some b
              /\ is_dml_type (kind_of b) = true.
Proof.
  unfold _has_dml_in_cte. rewrite existsb_exists. split.
  - intros [c [Hin Hb]]. apply find_all_In in Hin. destruct Hin as [Hin Hk].
    destruct (this c) as [b|] eqn:Ht; [|discriminate].
    exists c, b. repeat split; auto. destruct (kind_of c); try discriminate; reflexivity.
  - intros [c [b [Hin [Hk [Ht Hd]]]]]. exists c. split.
    + apply find_all_In. split; [exact Hin | now rewrite Hk].
    + now rewrite Ht.
Qed.

Example classify_writable_cte : classify writable_cte_stmt = DML.
Proof. reflexivity. Qed.

Example classify_nested_into : classify nested_into_stmt = DDL.
Proof. reflexivity. Qed.

(** C4 (counterexample): the claim reads "if the root carries an INTO target
    the classification is DDL, otherwise READ". [SELECT * FROM (SELECT * INTO x
    FROM t)] has a read root with no DML-bodied CTE and no [into] arg on the
    root, yet [classify] returns DDL: [_has_into] searches the whole tree. *)
Lemma C4_nested_into_counterexample :
  ~ (forall st : Expression,
       is_read_type (kind_of st) = true ->
       _has_dml_in_cte st = false ->
       arg st "into" = None ->
       classify st = READ).
Proof.
  intros H. specialize (H nested_into_stmt eq_refl eq_refl eq_refl).
  discriminate H.
Qed.

(** C4 (amended): for a read root (select, union, intersect, except):
    a CTE node anywhere in the tree whose body is an
    insert/update/delete/merge makes it DML; otherwise a plain-select root
    with an INTO node anywhere in its tree is DDL; otherwise it is READ
    (a union/intersect/except root is never DDL). *)
Theorem C4_classify_read_root (st : Expression)
    (Hread : is_read_type (kind_of st) = true) :
  ((exists c b, In c (walk st) /\ kind_of c = CTE /\ this c = Some b
                /\ is_dml_type (kind_of b) = true) ->
   classify st = DML) /\
  ((forall c b, In c (walk st) -> kind_of c = CTE -> this c = Some b ->
                is_dml_type (kind_of b) = false) ->
   (kind_of st = Select -> (exists n, In n (walk st) /\ kind_of n = Into) ->
    classify st = DDL) /\
   ((kind_of st <> Select \/ forall n, In n (walk st) -> kind_of n <> Into) ->
    classify st = READ)).
Proof.
  assert (Hb : is_blocked_type (kind_of st) = false)
    by (destruct (kind_of st); try discriminate; reflexivity).
  unfold classify. rewrite Hb, Hread. split.
  - intros Hc. apply has_dml_in_cte_iff in Hc. now rewrite Hc.
  - intros Hno.
    assert (Hd : _has_dml_in_cte st = false).
    { destruct (_has_dml_in_cte st) eqn:E; [|reflexivity].
      apply has_dml_in_cte_iff in E. destruct E as [c [b [H1 [H2 [H3 H4]]]]].
      rewrite (Hno c b H1 H2 H3) in H4. discriminate. }
    rewrite Hd. split.
    + intros Hs Hi. unfold _has_into. rewrite Hs. simpl.
      assert (is_some (find is_into st) = true) as Hf.
      { apply find_is_some. destruct Hi as [n [Hn Hk]]. exists n. now rewrite Hk. }
      destruct (find is_into st); [reflexivity | discriminate].
    + intros Hor. unfold _has_into.
      destruct Hor as [Hs | Hn].
      * replace (is_select (kind_of st)) with false; [reflexivity|].
        destruct (kind_of st); try reflexivity; congruence.
      * assert (find is_into st = None) as Hf.
        { apply find_none. intros n Hin. specialize (Hn n Hin).
          destruct (kind_of n); try reflexivity; congruence. }
        rewrite Hf. now rewrite andb_false_r.
Qed.

Lemma C4_classify_read_root_witness :
  is_read_type (kind_of writable_cte_stmt) = true /\ classify writable_cte_stmt = DML.
Proof.
  split; [reflexivity|].
  apply (proj1 (C4_classify_read_root writable_cte_stmt eq_refl)).
  exists (Node CTE [("this", Node Delete [("this", Node (Table "t") []);
                                         ("where", Node Where [])]);
                    ("alias", Node (Other "d") [])]).
  eexists. split; [simpl; tauto | repeat split; reflexivity].
Defined.

(** ** The pipeline, for any behaviour of the parser library *)

Section PipelineProps.
Context `{SG : Sqlglot}.
Variable extract_tables : Expression -> list string.


Lemma base_codes (st : Expression) (aw : bool) (sql : string) :
  has_code MULTIPLE_STATEMENTS
    (app (access_control (classify st) aw) (safety_checks st sql)) = false /\
  has_code LIMIT_INJECTED
    (app (access_control (classify st) aw) (safety_checks st sql)) = false.
Proof.
  unfold access_control, safety_checks, check_delete_without_where,
    check_update_without_where.
  destruct (classify st), aw; simpl;
    destruct (is_delete (kind_of st)), (is_update (kind_of st)), (find is_where st);
    simpl; split; reflexivity.
Qed.

Lemma inject_limit_some (st : Expression) (n : Z) (st' : Expression) (ld : Diagnostic) :
  inject_limit st n = (st', Some ld) ->
  code ld = LIMIT_INJECTED /\ level ld = INFO /\ st' = select_limit st n /\
  find is_limit st = None /\ find is_group st = None.
Proof.
  unfold inject_limit.
  destruct (is_select (kind_of st)); simpl; [|discriminate].
  destruct (find is_limit st); simpl; [discriminate|].
  destruct (find is_group st); simpl; [discriminate|].
  intros H. injection H as <- <-. repeat split; reflexivity.
Qed.

(** The shape of a result that passed step 1. *)
Lemma run_policy_single_path (sql : string) (d : option string) (aw : bool)
    (lim : option Z) (r : DiagnosticResult) :
  check_multiple_statements (py_strip sql) = None ->
  run_policy extract_tables sql d aw lim = Ok r ->
  (exists e, sqlglot_parse_one d (py_strip sql) = SErr (ParseError e) /\
             diagnostics r = [Diag.error SYNTAX_ERROR ("SQL syntax error: " ++ e)]) \/
  (exists st, sqlglot_parse_one d (py_strip sql) = SOk st /\
     (diagnostics r = app (access_control (classify st) aw) (safety_checks st (py_strip sql))
      \/ exists n st' ld, lim = Some n /\ inject_limit st n = (st', Some ld) /\
           diagnostics r = app (app (access_control (classify st) aw)
                                    (safety_checks st (py_strip sql))) [ld])).
Proof.
  intros Hm H. unfold run_policy in H. rewrite Hm in H.
  destruct (sqlglot_parse_one d (py_strip sql)) as [st|e] eqn:Hp.
  - right. exists st. split; [reflexivity|].
    destruct (negb _ && _), lim as [n|].
    + destruct (inject_limit st n) as [st' [ld|]] eqn:Hi.
      * injection H as <-. right. exists n, st', ld. repeat split; auto.
      * injection H as <-. now left.
    + injection H as <-. now left.
    + injection H as <-. now left.
    + injection H as <-. now left.
  - destruct e; try discriminate. injection H as <-. left. eexists; split; reflexivity.
Qed.


Lemma classify_delete_update (st : Expression) :
  is_delete (kind_of st) = true \/ is_update (kind_of st) = true -> classify st = DML.
Proof.
  unfold classify. destruct (kind_of st); simpl; intros [H|H]; try discriminate; reflexivity.
Qed.

Lemma safety_checks_nil (st : Expression) (sql : string) :
  classify st <> DML -> safety_checks st sql = [].
Proof.
  intros Hc. unfold safety_checks, check_delete_without_where, check_update_without_where.
  destruct (is_delete (kind_of st)) eqn:E1.
  { exfalso. apply Hc, classify_delete_update. now left. }
  destruct (is_update (kind_of st)) eqn:E2.
  { exfalso. apply Hc, classify_delete_update. now right. }
  simpl. rewrite E1, E2. reflexivity.
Qed.

End PipelineProps.

Lemma has_code_app (c : DiagnosticCode) (a b : list Diagnostic) :
  has_code c (app a b) = has_code c a || has_code c b.
Proof. unfold has_code. apply existsb_app. Qed.

Example codes_admin_blocked_missing :
  codes_getattr "ADMIN_BLOCKED"
  = Raise (AttributeError "module 'dbastion.diagnostics.codes' has no attribute 'ADMIN_BLOCKED'").
Proof. reflexivity. Qed.

Section ClaimProps.
Context `{SG : Sqlglot}.
Variable extract_tables : Expression -> list string.

(** C1 (code_bug): a statement [classify] puts in ADMIN (grant, copy,
    command) or UNKNOWN passes every step of [run_policy] with no
    diagnostic at all and is not blocked, whatever [allow_write] is: the
    access step only handles DML and DDL, and [codes] has no ADMIN_BLOCKED. *)
Theorem C1_admin_unknown_not_blocked (sql : string) (d : option string)
    (allow_write : bool) (lim : option Z) (st : Expression)
    (Hm : check_multiple_statements (py_strip sql) = None)
    (Hp : sqlglot_parse_one d (py_strip sql) = SOk st)
    (Hc : classify st = ADMIN \/ classify st = UNKNOWN) :
  run_policy extract_tables sql d allow_write lim
  = Ok (mkResult (py_strip sql) None [] false (extract_tables st) None).
Proof.
  assert (Hs : safety_checks st (py_strip sql) = [])
    by (apply safety_checks_nil; destruct Hc as [H|H]; rewrite H; discriminate).
  unfold run_policy. cbv zeta. rewrite Hm, Hp, Hs.
  destruct Hc as [H|H]; rewrite H; destruct allow_write, lim; reflexivity.
Qed.

(** C3: when [sqlglot.parse] yields more than one non-empty statement for
    the stripped input, [run_policy] is blocked with a Q0202 error whose
    primary span starts at the first [;] (or the middle of the string); when
    it yields at most one (a statement followed by empty chunks, i.e.
    trailing semicolons), step 1 passes and no Q0202 is ever reported. *)
Theorem C3_multiple_statements (sql : string) (d : option string) (aw : bool)
    (lim : option Z) (stmts : list (option Expression))
    (Hp : sqlglot_parse (py_strip sql) = SOk stmts) :
  let s := py_strip sql in
  let p := if py_find s ";" =? -1 then py_len s / 2 else py_find s ";" in
  ((1 < length (filter is_some stmts))%nat ->
   exists r, run_policy extract_tables sql d aw lim = Ok r /\ blocked r = true /\
     exists dg, In dg (diagnostics r) /\ code dg = MULTIPLE_STATEMENTS /\
                level dg = ERROR /\
                spans dg = [mkSpanLabel (mkSpan p (p + 1)) PRIMARY
                              (Some "second statement starts here")]) /\
  ((length (filter is_some stmts) <= 1)%nat ->
   check_multiple_statements s = None /\
   forall r, run_policy extract_tables sql d aw lim = Ok r ->
             has_code MULTIPLE_STATEMENTS (diagnostics r) = false).
Proof.
  cbv zeta. split.
  - intros Hlen. unfold run_policy, check_multiple_statements. cbv zeta.
    rewrite Hp.
    destruct (Z.of_nat (length (filter is_some stmts)) <=? 1) eqn:E.
    + apply Z.leb_le in E. lia.
    + eexists. split; [reflexivity|]. split; [reflexivity|].
      eexists. split; [left; reflexivity|]. repeat split.
  - intros Hlen.
    assert (Hm : check_multiple_statements (py_strip sql) = None).
    { unfold check_multiple_statements. rewrite Hp.
      replace (Z.of_nat (length (filter is_some stmts)) <=? 1) with true
        by (symmetry; apply Z.leb_le; lia).
      reflexivity. }
    split; [exact Hm|]. intros r Hr.
    destruct (run_policy_single_path extract_tables sql d aw lim r Hm Hr)
      as [[e [_ He]] | [st [_ [Hd | [n [st' [ld [_ [Hi Hd]]]]]]]]].
    + now rewrite He.
    + rewrite Hd. apply base_codes.
    + rewrite Hd, has_code_app, (proj1 (base_codes st aw _)).
      apply inject_limit_some in Hi. destruct Hi as [Hc _].
      simpl. now rewrite Hc.
Qed.

(** C6 (code_bug): on an input where sqlglot's tokenizer fails (the
    [TokenError] of an unterminated string), step 1 swallows the error and
    reports no multi-statement problem, but step 2 only catches
    [ParseError], so [run_policy] raises instead of returning a Q0001
    result. *)
Theorem C6_token_error_escapes (sql : string) (d : option string) (aw : bool)
    (lim : option Z) (e : sqlglot_error) (m : string)
    (Hparse : sqlglot_parse (py_strip sql) = SErr e)
    (Hone : sqlglot_parse_one d (py_strip sql) = SErr (TokenError m)) :
  check_multiple_statements (py_strip sql) = None /\
  run_policy extract_tables sql d aw lim = Raise (SqlglotExn (TokenError m)).
Proof.
  assert (Hm : check_multiple_statements (py_strip sql) = None)
    by (unfold check_multiple_statements; now rewrite Hparse).
  split; [exact Hm|].
  unfold run_policy. cbv zeta. now rewrite Hm, Hone.
Qed.

End ClaimProps.


Lemma set_arg_walk (key : string) (v : Expression) (args : list (string * Expression))
    (k : kind) :
  In v (tl (walk (Node k (set_arg key v args)))).
Proof.
  induction args as [|[k' w] r IH]; simpl.
  - apply in_or_app. left. apply walk_self.
  - destruct (String.eqb k' key); simpl; apply in_or_app.
    + left. apply walk_self.
    + right. exact IH.
Qed.

Section ClaimProps2.
Context `{SG : Sqlglot}.
Variable extract_tables : Expression -> list string.




End ClaimProps2.

Lemma exec_not_read (pr : DiagnosticResult) :
  classification pr <> Some "read" ->
  match classification pr with Some c => String.eqb c "read" | None => false end = false.
Proof.
  destruct (classification pr) as [c|]; [|reflexivity]. intros H.
  apply String.eqb_neq. congruence.
Qed.

Section ClaimProps3.
Context `{SG : Sqlglot}.
Variable extract_tables : Expression -> list string.



(** C8 (code_bug): both commands raise [TypeError] at their first step (the
    [dangerous_functions] keyword). Past that step, the write command's gate
    does what the claim says, but the query command's gate hands the [None]
    estimate to [check_cost_threshold], which raises [AttributeError] as
    soon as a threshold is set; without thresholds both proceed to
    execution. *)
Theorem C8_cost_gate_without_estimate :
  (forall sql dro skip d aw lim gb usd rows dry,
     _run_query extract_tables sql dro skip d aw lim gb usd rows dry
     = Raise unexpected_dangerous_kwarg) /\
  (forall sql skip d lim gb usd rows dry,
     _run_exec extract_tables sql skip d lim gb usd rows dry
     = Raise unexpected_dangerous_kwarg) /\
  (forall pr dro gb usd rows,
     blocked pr = false -> (is_some gb || is_some usd || is_some rows) = true ->
     exists msg, query_after_policy pr dro false gb usd rows None
                 = Raise (AttributeError msg)) /\
  (forall pr gb usd rows,
     classification pr <> Some "read" -> blocked pr = false ->
     (is_some gb || is_some usd || is_some rows) = true ->
     exec_after_policy pr false gb usd rows None
     = Ok (mkOutcome 1 (Some "deny") (app (policy_codes pr) [COST_OVER_THRESHOLD]) false)) /\
  (forall pr dro,
     blocked pr = false ->
     query_after_policy pr dro false None None None None
     = Ok (mkOutcome 0 None (policy_codes pr) (negb dro))) /\
  (forall pr,
     classification pr <> Some "read" -> blocked pr = false ->
     exec_after_policy pr false None None None None
     = Ok (mkOutcome 0 (Some "allow") (policy_codes pr) true)).
Proof.
  split; [reflexivity|]. split; [reflexivity|]. split.
  { intros pr dro gb usd rows Hb Ht. unfold query_after_policy. rewrite Hb. simpl.
    destruct gb as [g|]; simpl; [eauto|].
    destruct usd as [u|]; simpl; [eauto|].
    destruct rows as [w|]; simpl; [eauto|]. discriminate. }
  split.
  { intros pr gb usd rows Hc Hb Ht. unfold exec_after_policy.
    rewrite (exec_not_read pr Hc), Hb, Ht. reflexivity. }
  split.
  { intros pr dro Hb. unfold query_after_policy. rewrite Hb.
    destruct dro; reflexivity. }
  intros pr Hc Hb. unfold exec_after_policy. rewrite (exec_not_read pr Hc), Hb.
  reflexivity.
Qed.

End ClaimProps3.

(* ------------------------------------------------------------------ *)
(** ** apply_fixes *)

Definition start_desc (a b : SubstitutionPart) : Prop := part_start b <= part_start a.

Lemma insert_desc_perm (x : SubstitutionPart) (l : list SubstitutionPart) :
  Permutation (x :: l) (insert_desc x l).
Proof.
  induction l as [|y r IH]; simpl; [reflexivity|].
  destruct (part_start y <=? part_start x); [reflexivity|].
  rewrite perm_swap. constructor. exact IH.
Qed.

Lemma sort_desc_perm (l : list SubstitutionPart) : Permutation l (sort_desc l).
Proof.
  induction l as [|x r IH]; simpl; [reflexivity|].
  rewrite <- insert_desc_perm. constructor. exact IH.
Qed.

Lemma insert_desc_sorted (x : SubstitutionPart) (l : list SubstitutionPart) :
  Sorted start_desc l -> Sorted start_desc (insert_desc x l).
Proof.
  induction l as [|y r IH]; simpl; intros Hs; [repeat constructor|].
  destruct (part_start y <=? part_start x) eqn:E.
  - constructor; [exact Hs|]. constructor. unfold start_desc. lia.
  - apply Sorted_inv in Hs. destruct Hs as [Hr Hh].
    constructor; [exact (IH Hr)|].
    destruct r as [|z r']; simpl.
    + constructor. unfold start_desc. lia.
    + apply HdRel_inv in Hh.
      destruct (part_start z <=? part_start x); constructor; unfold start_desc in *; lia.
Qed.

Lemma sort_desc_sorted (l : list SubstitutionPart) : Sorted start_desc (sort_desc l).
Proof.
  induction l as [|x r IH]; simpl; [constructor|]. apply insert_desc_sorted, IH.
Qed.

Lemma perm_Forall (P : SubstitutionPart -> Prop) (l l' : list SubstitutionPart) :
  Permutation l l' -> Forall P l -> Forall P l'.
Proof.
  intros Hp H. rewrite Forall_forall in H |- *. intros x Hx.
  apply H. apply (Permutation_in x (Permutation_sym Hp) Hx).
Qed.

Lemma ForallOrdPairs_perm (R : SubstitutionPart -> SubstitutionPart -> Prop)
    (Hsym : forall a b, R a b -> R b a) (l l' : list SubstitutionPart) :
  Permutation l l' -> ForallOrdPairs R l -> ForallOrdPairs R l'.
Proof.
  intros Hp. induction Hp as [| x l l' Hp IH | x y l | l l' l'' _ IH1 _ IH2];
    intros H.
  - exact H.
  - inversion H as [|? ? Hf Hr]; subst. constructor; [|exact (IH Hr)].
    exact (perm_Forall _ _ _ Hp Hf).
  - inversion H as [|? ? Hf Hr]; subst. inversion Hr as [|? ? Hf' Hr']; subst.
    inversion Hf as [|? ? Hyx Hyl]; subst.
    constructor; [constructor; [apply Hsym; exact Hyx | exact Hf']|].
    constructor; assumption.
  - exact (IH2 (IH1 H)).
Qed.

Lemma ForallOrdPairs_split (R : SubstitutionPart -> SubstitutionPart -> Prop)
    (l1 l2 l3 : list SubstitutionPart) (p q : SubstitutionPart) :
  ForallOrdPairs R (app l1 (p :: app l2 (q :: l3))) -> R p q.
Proof.
  induction l1 as [|x r IH]; simpl; intros H.
  - inversion H as [|? ? Hf _]; subst. rewrite Forall_forall in Hf.
    apply Hf, in_or_app. right. left. reflexivity.
  - inversion H; subst. auto.
Qed.

Lemma adjacent_ok_head (x : SubstitutionPart) (r : list SubstitutionPart) :
  Forall (fun p => part_start p <= part_end p) r ->
  adjacent_ok (x :: r) = true -> Forall (fun q => part_end q <= part_start x) r.
Proof.
  revert x. induction r as [|y r IH]; intros x Hw Ha; [constructor|].
  simpl in Ha. apply andb_true_iff in Ha. destruct Ha as [Hxy Ha].
  apply Z.leb_le in Hxy. inversion Hw as [|? ? Hy Hw']; subst.
  constructor; [exact Hxy|].
  specialize (IH y Hw' Ha). rewrite Forall_forall in IH |- *.
  intros q Hq. specialize (IH q Hq). lia.
Qed.

Lemma adjacent_ok_pairs (l : list SubstitutionPart) :
  Forall (fun p => part_start p <= part_end p) l ->
  adjacent_ok l = true -> ForallOrdPairs (fun p q => ~ overlap p q) l.
Proof.
  induction l as [|x r IH]; intros Hw Ha; [constructor|].
  inversion Hw as [|? ? _ Hw']; subst.
  constructor.
  - refine (Forall_impl _ _ (adjacent_ok_head x r Hw' Ha)).
    intros q Hq. unfold overlap. lia.
  - apply IH; [exact Hw'|]. destruct r as [|y r']; [reflexivity|].
    simpl in Ha. apply andb_true_iff in Ha. exact (proj2 Ha).
Qed.

Lemma pairs_adjacent_ok (l : list SubstitutionPart) :
  Sorted start_desc l -> Forall (fun p => part_start p < part_end p) l ->
  ForallOrdPairs (fun p q => ~ overlap p q) l -> adjacent_ok l = true.
Proof.
  induction l as [|x r IH]; intros Hs Hw Hp; [reflexivity|].
  destruct r as [|y r']; [reflexivity|].
  apply Sorted_inv in Hs. destruct Hs as [Hs Hh]. apply HdRel_inv in Hh.
  inversion Hw as [|? ? Hx Hw']; subst.
  inversion Hp as [|? ? Hf Hp']; subst. inversion Hf as [|? ? Hxy _]; subst.
  simpl. apply andb_true_iff. split.
  - apply Z.leb_le. unfold start_desc, overlap in *. lia.
  - apply IH; assumption.
Qed.

Lemma Forall_le_of_lt (l : list SubstitutionPart) :
  Forall (fun p => part_start p < part_end p) l ->
  Forall (fun p => part_start p <= part_end p) l.
Proof. apply Forall_impl. intros a Ha. lia. Qed.

(** [sort_desc] is stable: the parts with any one start keep their
    relative order. *)
Lemma insert_desc_stable (x : SubstitutionPart) (l : list SubstitutionPart) (z : Z) :
  filter (fun p => part_start p =? z) (insert_desc x l) =
  filter (fun p => part_start p =? z) (x :: l).
Proof.
  induction l as [|y r IH]; simpl; [reflexivity|].
  destruct (part_start y <=? part_start x) eqn:E; [reflexivity|].
  apply Z.leb_gt in E. simpl. rewrite IH. simpl.
  destruct (part_start x =? z) eqn:Ex, (part_start y =? z) eqn:Ey; try reflexivity.
  apply Z.eqb_eq in Ex, Ey. lia.
Qed.

Lemma sort_desc_stable (l : list SubstitutionPart) (z : Z) :
  filter (fun p => part_start p =? z) (sort_desc l) = filter (fun p => part_start p =? z) l.
Proof.
  induction l as [|x r IH]; simpl; [reflexivity|].
  rewrite insert_desc_stable. simpl. rewrite IH. reflexivity.
Qed.

(** C5 (amended): [apply_fixes] gathers the MachineApplicable parts; with
    none it returns [None]. When some two of the gathered parts (spans with
    start <= end) overlap, it returns [None]. When the batch is non-empty,
    its spans are non-empty and pairwise non-overlapping, it returns the
    input with every part spliced in, in the stable descending-start order
    of the batch: a reordering, sorted by descending start, in which the
    parts sharing a start keep their batch order. For every batch,
    whatever its spans, a returned string is the input with every part of
    the batch spliced in, in that order: no part is left out. *)
Theorem C5_apply_fixes (sql : string) (ds : list Diagnostic) :
  (gather_parts ds = [] -> apply_fixes sql ds = None) /\
  (Forall (fun p => part_start p <= part_end p) (gather_parts ds) ->
   (exists l1 p l2 q l3, gather_parts ds = app l1 (p :: app l2 (q :: l3)) /\ overlap p q) ->
   apply_fixes sql ds = None) /\
  (gather_parts ds <> [] ->
   Forall (fun p => part_start p < part_end p) (gather_parts ds) ->
   ForallOrdPairs (fun p q => ~ overlap p q) (gather_parts ds) ->
   apply_fixes sql ds = Some (fold_left splice (sort_desc (gather_parts ds)) sql) /\
   Permutation (gather_parts ds) (sort_desc (gather_parts ds)) /\
   Sorted start_desc (sort_desc (gather_parts ds)) /\
   (forall z, filter (fun p => part_start p =? z) (sort_desc (gather_parts ds))
              = filter (fun p => part_start p =? z) (gather_parts ds))) /\
  (forall s, apply_fixes sql ds = Some s ->
   gather_parts ds <> [] /\ s = fold_left splice (sort_desc (gather_parts ds)) sql).
Proof.
  assert (Hsym : forall a b, ~ overlap a b -> ~ overlap b a)
    by (unfold overlap; intros a b H [H1 H2]; apply H; split; assumption).
  unfold apply_fixes. split; [|split; [|split]].
  - intros H. rewrite H. reflexivity.
  - intros Hw [l1 [p [l2 [q [l3 [Hl Hov]]]]]].
    destruct (gather_parts ds) as [|x r] eqn:E;
      [destruct l1; discriminate|].
    rewrite <- E in *. cbv zeta.
    destruct (adjacent_ok (sort_desc (gather_parts ds))) eqn:Ha; [|reflexivity].
    exfalso.
    assert (Hw' := perm_Forall _ _ _ (sort_desc_perm _) Hw).
    assert (Hpairs := adjacent_ok_pairs _ Hw' Ha).
    apply (ForallOrdPairs_perm _ Hsym _ _ (Permutation_sym (sort_desc_perm _))) in Hpairs.
    rewrite Hl in Hpairs. exact (ForallOrdPairs_split _ _ _ _ _ _ Hpairs Hov).
  - intros Hne Hw Hp.
    assert (Hperm := sort_desc_perm (gather_parts ds)).
    assert (Hs := sort_desc_sorted (gather_parts ds)).
    assert (Ha : adjacent_ok (sort_desc (gather_parts ds)) = true).
    { apply pairs_adjacent_ok; [exact Hs | |].
      - exact (perm_Forall _ _ _ Hperm Hw).
      - exact (ForallOrdPairs_perm _ Hsym _ _ Hperm Hp). }
    split; [|split; [assumption | split; [assumption | apply sort_desc_stable]]].
    destruct (gather_parts ds) as [|x r] eqn:E; [contradiction|].
    cbv zeta. rewrite Ha. reflexivity.
  - intros s0 H.
    destruct (gather_parts ds) as [|x r] eqn:E; [discriminate|].
    cbv zeta in H. rewrite <- E in *.
    destruct (adjacent_ok (sort_desc (gather_parts ds))); [|discriminate].
    injection H as <-. split; [rewrite E; discriminate | reflexivity].
Qed.

(* ------------------------------------------------------------------ *)
(** ** cleanup_old_logs *)

(** The cutoff [now - timedelta(days=retention_days)]: the difference in
    microseconds when both steps are in range, [OverflowError] otherwise. *)
Lemma cleanup_cutoff_spec (retention_days now : Z) :
  (Z.abs retention_days <= 999999999 ->
   DATETIME_MIN <= now - retention_days * MICROS_PER_DAY <= DATETIME_MAX ->
   datetime_sub now (timedelta_days retention_days)
   = Ok (now - retention_days * MICROS_PER_DAY)) /\
  (~ (Z.abs retention_days <= 999999999 /\
      DATETIME_MIN <= now - retention_days * MICROS_PER_DAY <= DATETIME_MAX) ->
   exists msg, datetime_sub now (timedelta_days retention_days) = Raise (OverflowError msg)).
Proof.
  unfold datetime_sub, timedelta_days. split.
  - intros Ha [Hlo Hhi].
    replace (999999999 <? Z.abs retention_days) with false by (symmetry; apply Z.ltb_ge; lia).
    simpl py_bind.
    replace (now - retention_days * MICROS_PER_DAY <? DATETIME_MIN) with false
      by (symmetry; apply Z.ltb_ge; lia).
    replace (DATETIME_MAX <? now - retention_days * MICROS_PER_DAY) with false
      by (symmetry; apply Z.ltb_ge; lia).
    reflexivity.
  - intros Hn. destruct (999999999 <? Z.abs retention_days) eqn:Ea.
    + eexists. reflexivity.
    + apply Z.ltb_ge in Ea. simpl py_bind.
      destruct (now - retention_days * MICROS_PER_DAY <? DATETIME_MIN) eqn:E1;
        [eexists; reflexivity|].
      destruct (DATETIME_MAX <? now - retention_days * MICROS_PER_DAY) eqn:E2;
        [eexists; reflexivity|].
      exfalso. apply Z.ltb_ge in E1, E2. apply Hn. lia.
Qed.

Section QuerylogProps.
Variable strptime_ymd : string -> option Z.

Definition expired (cutoff : Z) (f : string) : Prop :=
  exists t, strptime_ymd (stem f) = Some t /\ t < cutoff.

Lemma cleanup_fold_files (cutoff : Z) (L : list string) (n : Z) (fs : list string)
    (f : string) :
  In f (snd (fold_left (cleanup_step strptime_ymd cutoff) L (n, fs)))
  <-> In f fs /\ ~ (In f L /\ expired cutoff f).
Proof.
  revert n fs. induction L as [|g L IH]; intros n fs; simpl.
  - split; [intros H; split; [exact H | intros [[] _]] | tauto].
  - unfold cleanup_step at 1.
    destruct (strptime_ymd (stem g)) as [t|] eqn:Et.
    + destruct (t <? cutoff) eqn:Ec.
      * rewrite IH, filter_In. apply Z.ltb_lt in Ec.
        destruct (String.eqb_spec f g) as [->|Hne]; simpl.
        -- split; [intros [[_ H] _]; discriminate|].
           intros [_ H]. exfalso. apply H. split; [left; reflexivity|].
           exists t. split; assumption.
        -- split.
           ++ intros [[Hf _] Hn]. split; [exact Hf|].
              intros [[Heq|Hin] He]; [congruence|]. apply Hn. split; assumption.
           ++ intros [Hf Hn]. split; [split; [exact Hf | reflexivity]|].
              intros [Hin He]. apply Hn. split; [right; exact Hin | exact He].
      * rewrite IH. apply Z.ltb_ge in Ec.
        split.
        -- intros [Hf Hn]. split; [exact Hf|].
           intros [[<-|Hin] He].
           ++ destruct He as [t' [Ht' Hlt]]. rewrite Et in Ht'.
              injection Ht' as <-. lia.
           ++ apply Hn. split; assumption.
        -- intros [Hf Hn]. split; [exact Hf|].
           intros [Hin He]. apply Hn. split; [right; exact Hin | exact He].
    + rewrite IH. split.
      * intros [Hf Hn]. split; [exact Hf|].
        intros [[<-|Hin] He].
        -- destruct He as [t' [Ht' _]]. rewrite Et in Ht'. discriminate.
        -- apply Hn. split; assumption.
      * intros [Hf Hn]. split; [exact Hf|].
        intros [Hin He]. apply Hn. split; [right; exact Hin | exact He].
Qed.

(** C10 (amended): [cleanup_old_logs] first computes the cutoff
    [now - timedelta(days=retention_days)]. When [|retention_days|] is at
    most 999999999 and the cutoff is a representable [datetime], it
    returns: with no log directory, 0 and nothing changes; otherwise a file
    name stays in the directory exactly when it is not both a [*.jsonl]
    name and one whose stem parses to a date before the cutoff, and the
    directory is gone afterwards exactly when no file is left in it.
    Otherwise it raises [OverflowError] whether or not the directory
    exists. The default retention is 30 days. *)
Theorem C10_cleanup_old_logs (retention_days now : Z) (d : LogDir) :
  DEFAULT_RETENTION_DAYS = 30 /\
  (Z.abs retention_days <= 999999999 ->
   DATETIME_MIN <= now - retention_days * MICROS_PER_DAY <= DATETIME_MAX ->
   (dir_exists d = false ->
    cleanup_old_logs strptime_ymd retention_days now d = Ok (0, d)) /\
   (dir_exists d = true ->
    exists deleted d',
      cleanup_old_logs strptime_ymd retention_days now d = Ok (deleted, d') /\
      (forall f, In f (dir_files d') <->
         In f (dir_files d) /\
         ~ (glob_jsonl f = true /\ expired (now - retention_days * MICROS_PER_DAY) f)) /\
      (dir_exists d' = false <-> dir_files d' = []))) /\
  (~ (Z.abs retention_days <= 999999999 /\
      DATETIME_MIN <= now - retention_days * MICROS_PER_DAY <= DATETIME_MAX) ->
   exists msg, cleanup_old_logs strptime_ymd retention_days now d = Raise (OverflowError msg)).
Proof.
  split; [reflexivity|]. split.
  - intros Ha Hr. unfold cleanup_old_logs.
    rewrite (proj1 (cleanup_cutoff_spec retention_days now) Ha Hr). simpl py_bind.
    split; [intros H; rewrite H; reflexivity|].
    intros H. rewrite H. simpl negb. cbv iota.
    assert (Hf := cleanup_fold_files (now - retention_days * MICROS_PER_DAY)
                    (filter glob_jsonl (dir_files d)) 0 (dir_files d)).
    destruct (fold_left _ _ _) as [deleted files]. simpl in Hf.
    assert (Hin : forall f, In f files <->
               In f (dir_files d) /\
               ~ (glob_jsonl f = true /\ expired (now - retention_days * MICROS_PER_DAY) f)).
    { intros f. rewrite Hf, filter_In. tauto. }
    destruct files as [|x r]; eexists; eexists; (split; [reflexivity|]); simpl;
      (split; [exact Hin|]); split; congruence.
  - intros Hn. destruct (proj2 (cleanup_cutoff_spec retention_days now) Hn) as [msg Hm].
    exists msg. unfold cleanup_old_logs. rewrite Hm. reflexivity.
Qed.

End QuerylogProps.

(* ------------------------------------------------------------------ *)
(** * Counterexamples and instances on concrete inputs *)

(** C5: the empty batch is vacuously pairwise non-overlapping, yet
    [apply_fixes] returns [None] on it ("Returns None if no fixes were
    applied"). So does the batch of an empty span [3,3) followed by [3,5):
    the two do not overlap, but the stable sort keeps [3,3) first and the
    check [parts[1].span.end > parts[0].span.start] (5 > 3) rejects it. *)
Lemma C5_empty_batch_counterexample :
  gather_parts [] = [] /\
  ForallOrdPairs (fun p q => ~ overlap p q) (gather_parts []) /\
  apply_fixes "SELECT 1" [] = None /\
  let ds := [Diag.fix' (Diag.error DELETE_WITHOUT_WHERE "") "a" (mkSpan 3 3) "x";
             Diag.fix' (Diag.error UPDATE_WITHOUT_WHERE "") "b" (mkSpan 3 5) "y"] in
  length (gather_parts ds) = 2%nat /\
  ForallOrdPairs (fun p q => ~ overlap p q) (gather_parts ds) /\
  apply_fixes "SELECT 1" ds = None.
Proof.
  split; [reflexivity|]. split; [constructor|]. split; [reflexivity|].
  cbv zeta. split; [reflexivity|]. split; [|vm_compute; reflexivity].
  simpl. constructor; [|repeat constructor].
  constructor; [|constructor]. unfold overlap, part_start, part_end. simpl. lia.
Qed.


Lemma C1_admin_unknown_not_blocked_witness :
  check_multiple_statements (py_strip "GRANT SELECT ON users TO readonly_role") = None /\
  sqlglot_parse_one None (py_strip "GRANT SELECT ON users TO readonly_role") = SOk grant_stmt /\
  (classify grant_stmt = ADMIN \/ classify grant_stmt = UNKNOWN) /\
  run_policy no_tables "GRANT SELECT ON users TO readonly_role" None true (Some 1000)
  = Ok (mkResult "GRANT SELECT ON users TO readonly_role" None [] false [] None).
Proof.
  assert (Hm : check_multiple_statements (py_strip "GRANT SELECT ON users TO readonly_role")
               = None) by (vm_compute; reflexivity).
  assert (Hp : sqlglot_parse_one None (py_strip "GRANT SELECT ON users TO readonly_role")
               = SOk grant_stmt) by (vm_compute; reflexivity).
  assert (Hc : classify grant_stmt = ADMIN \/ classify grant_stmt = UNKNOWN)
    by (left; vm_compute; reflexivity).
  split; [exact Hm|]. split; [exact Hp|]. split; [exact Hc|].
  exact (C1_admin_unknown_not_blocked no_tables _ None true (Some 1000) grant_stmt Hm Hp Hc).
Defined.


Lemma C3_multiple_statements_witness :
  sqlglot_parse (py_strip "SELECT 1; DROP TABLE users") = SOk [Some select_one; Some drop_users] /\
  (exists r, run_policy no_tables "SELECT 1; DROP TABLE users" None false (Some 1000) = Ok r /\
     blocked r = true /\
     exists dg, In dg (diagnostics r) /\ code dg = MULTIPLE_STATEMENTS /\ level dg = ERROR /\
       spans dg = [mkSpanLabel (mkSpan 8 9) PRIMARY (Some "second statement starts here")]) /\
  sqlglot_parse (py_strip "SELECT 1;") = SOk [Some select_one; None] /\
  check_multiple_statements (py_strip "SELECT 1;") = None.
Proof.
  assert (H1 : sqlglot_parse (py_strip "SELECT 1; DROP TABLE users")
               = SOk [Some select_one; Some drop_users]) by (vm_compute; reflexivity).
  assert (H2 : sqlglot_parse (py_strip "SELECT 1;") = SOk [Some select_one; None])
    by (vm_compute; reflexivity).
  split; [exact H1|]. split.
  - exact (proj1 (C3_multiple_statements no_tables _ None false (Some 1000) _ H1)
                 (ltac:(simpl; lia))).
  - split; [exact H2|].
    exact (proj1 (proj2 (C3_multiple_statements no_tables _ None false (Some 1000) _ H2)
                        (ltac:(simpl; lia)))).
Defined.

Lemma C5_apply_fixes_witness :
  let ds := [Diag.fix' (Diag.error DELETE_WITHOUT_WHERE "") "a" (mkSpan 0 6) "DELETE";
             Diag.fix' (Diag.error UPDATE_WITHOUT_WHERE "") "b" (mkSpan 9 10) "u"] in
  gather_parts ds <> [] /\
  Forall (fun p => part_start p < part_end p) (gather_parts ds) /\
  ForallOrdPairs (fun p q => ~ overlap p q) (gather_parts ds) /\
  apply_fixes "delete * t" ds = Some (fold_left splice (sort_desc (gather_parts ds)) "delete * t").
Proof.
  cbv zeta.
  assert (Hne : gather_parts
    [Diag.fix' (Diag.error DELETE_WITHOUT_WHERE "") "a" (mkSpan 0 6) "DELETE";
     Diag.fix' (Diag.error UPDATE_WITHOUT_WHERE "") "b" (mkSpan 9 10) "u"] <> [])
    by (vm_compute; discriminate).
  assert (Hw : Forall (fun p => part_start p < part_end p) (gather_parts
    [Diag.fix' (Diag.error DELETE_WITHOUT_WHERE "") "a" (mkSpan 0 6) "DELETE";
     Diag.fix' (Diag.error UPDATE_WITHOUT_WHERE "") "b" (mkSpan 9 10) "u"]))
    by (simpl; repeat constructor; unfold part_start, part_end; simpl; lia).
  assert (Hp : ForallOrdPairs (fun p q => ~ overlap p q) (gather_parts
    [Diag.fix' (Diag.error DELETE_WITHOUT_WHERE "") "a" (mkSpan 0 6) "DELETE";
     Diag.fix' (Diag.error UPDATE_WITHOUT_WHERE "") "b" (mkSpan 9 10) "u"]))
    by (simpl; constructor;
        [constructor; [unfold overlap, part_start, part_end; simpl; lia | constructor]
        | repeat constructor]).
  split; [exact Hne|]. split; [exact Hw|]. split; [exact Hp|].
  exact (proj1 (proj1 (proj2 (proj2 (C5_apply_fixes "delete * t" _))) Hne Hw Hp)).
Defined.

Lemma C6_token_error_escapes_witness :
  sqlglot_parse (py_strip "SELECT 'abc") = SErr (TokenError "Missing ' from 1:8") /\
  sqlglot_parse_one None (py_strip "SELECT 'abc") = SErr (TokenError "Missing ' from 1:8") /\
  check_multiple_statements (py_strip "SELECT 'abc") = None /\
  run_policy no_tables "SELECT 'abc" None false (Some 1000)
  = Raise (SqlglotExn (TokenError "Missing ' from 1:8")).
Proof.
  assert (H1 : sqlglot_parse (py_strip "SELECT 'abc") = SErr (TokenError "Missing ' from 1:8"))
    by (vm_compute; reflexivity).
  assert (H2 : sqlglot_parse_one None (py_strip "SELECT 'abc")
               = SErr (TokenError "Missing ' from 1:8")) by (vm_compute; reflexivity).
  split; [exact H1|]. split; [exact H2|].
  exact (C6_token_error_escapes no_tables _ None false (Some 1000) _ _ H1 H2).
Defined.


Lemma C8_cost_gate_without_estimate_witness :
  let pr := mkResult "DELETE FROM t WHERE id=1" None [] false [] None in
  _run_query no_tables "SELECT 1" false false None false (Some 1000)
    (Some 10%Q) None None None = Raise unexpected_dangerous_kwarg /\
  _run_exec no_tables "DELETE FROM t WHERE id=1" false None None
    (Some 10%Q) None None None = Raise unexpected_dangerous_kwarg /\
  (exists msg, query_after_policy pr false false (Some 10%Q) None None None
               = Raise (AttributeError msg)) /\
  exec_after_policy pr false (Some 10%Q) None None None
  = Ok (mkOutcome 1 (Some "deny") [COST_OVER_THRESHOLD] false).
Proof.
  cbv zeta.
  destruct (C8_cost_gate_without_estimate no_tables) as [H1 [H2 [H3 [H4 _]]]].
  split; [apply H1|]. split; [apply H2|]. split.
  - apply H3; reflexivity.
  - apply (H4 (mkResult "DELETE FROM t WHERE id=1" None [] false [] None));
      [discriminate | reflexivity | reflexivity].
Defined.


Lemma C10_cleanup_old_logs_witness :
  let d := mkLogDir true ["2020-01-01.jsonl"; "notes.jsonl"; "2099-01-01.jsonl"; "a.txt"] in
  let now := days_from_civil 2026 10 14 * MICROS_PER_DAY in
  Z.abs 30 <= 999999999 /\
  DATETIME_MIN <= now - 30 * MICROS_PER_DAY <= DATETIME_MAX /\
  dir_exists d = true /\
  exists deleted d',
    cleanup_old_logs ymd_strptime 30 now d = Ok (deleted, d') /\
    (forall f, In f (dir_files d') <->
       In f (dir_files d) /\
       ~ (glob_jsonl f = true /\ expired ymd_strptime (now - 30 * MICROS_PER_DAY) f)) /\
    (dir_exists d' = false <-> dir_files d' = []).
Proof.
  cbv zeta.
  assert (Ha : Z.abs 30 <= 999999999) by (vm_compute; discriminate).
  assert (Hr : DATETIME_MIN <= days_from_civil 2026 10 14 * MICROS_PER_DAY - 30 * MICROS_PER_DAY
               <= DATETIME_MAX) by (vm_compute; split; discriminate).
  split; [exact Ha|]. split; [exact Hr|]. split; [reflexivity|].
  exact (proj2 (proj1 (proj2 (C10_cleanup_old_logs ymd_strptime 30
                         (days_from_civil 2026 10 14 * MICROS_PER_DAY)
                         (mkLogDir true ["2020-01-01.jsonl"; "notes.jsonl";
                                         "2099-01-01.jsonl"; "a.txt"]))) Ha Hr) eq_refl).
Defined.

(** C10: a retention of -3000000 days puts [now - retention_days] after
    today's log file, so by the cutoff's arithmetic the file is expired;
    [datetime] cannot represent that cutoff (year 10240), so
    [cleanup_old_logs] raises [OverflowError] and the file stays. *)
Lemma C10_cutoff_overflow_counterexample :
  let now := days_from_civil 2026 10 14 * MICROS_PER_DAY in
  glob_jsonl "2026-10-14.jsonl" = true /\
  expired ymd_strptime (now - (-3000000) * MICROS_PER_DAY) "2026-10-14.jsonl" /\
  cleanup_old_logs ymd_strptime (-3000000) now (mkLogDir true ["2026-10-14.jsonl"])
  = Raise (OverflowError "date value out of range").
Proof.
  cbv zeta. split; [reflexivity|]. split.
  - exists (days_from_civil 2026 10 14 * MICROS_PER_DAY).
    split; vm_compute; reflexivity.
  - vm_compute. reflexivity.
Qed.

Example cleanup_old_logs_example :
  cleanup_old_logs ymd_strptime 30 (days_from_civil 2026 10 14 * MICROS_PER_DAY)
    (mkLogDir true ["2020-01-01.jsonl"; "notes.jsonl"; "2099-01-01.jsonl"; "a.txt"])
  = Ok (1, mkLogDir true ["notes.jsonl"; "2099-01-01.jsonl"; "a.txt"]).
Proof. vm_compute. reflexivity. Qed.

Example cleanup_old_logs_overflow_example :
  cleanup_old_logs ymd_strptime 1000000000 0 (mkLogDir false [])
  = Raise (OverflowError "days=1000000000; must have magnitude <= 999999999") /\
  cleanup_old_logs ymd_strptime 1000000 (days_from_civil 2026 10 14 * MICROS_PER_DAY)
    (mkLogDir false [])
  = Raise (OverflowError "date value out of range").
Proof. split; vm_compute; reflexivity. Qed.

Example apply_fixes_example :
  apply_fixes "delete * t"
    [Diag.fix' (Diag.error DELETE_WITHOUT_WHERE "") "a" (mkSpan 0 6) "DELETE";
     Diag.fix' (Diag.error UPDATE_WITHOUT_WHERE "") "b" (mkSpan 9 10) "u"]
  = Some "DELETE * u".
Proof. vm_compute. reflexivity. Qed.

(* ================================================================== *)
(** * Further properties of the code *)

(** ** run_policy *)

Lemma inject_limit_spec (st : Expression) (n : Z) (st' : Expression) (ld : Diagnostic) :
  inject_limit st n = (st', Some ld) ->
  kind_of st = Select /\ find is_limit st = None /\ find is_group st = None /\
  st' = select_limit st n /\ level ld = INFO /\ code ld = LIMIT_INJECTED /\
  suggestions ld = [].
Proof.
  unfold inject_limit.
  destruct (kind_of st) eqn:Ek; simpl; try discriminate.
  destruct (find is_limit st); simpl; [discriminate|].
  destruct (find is_group st); simpl; [discriminate|].
  intros H. injection H as <- <-. repeat split; reflexivity.
Qed.

Lemma check_multiple_statements_shape `{SG : Sqlglot} (sql : string) (d : Diagnostic) :
  check_multiple_statements sql = Some d ->
  level d = ERROR /\ code d = MULTIPLE_STATEMENTS /\ suggestions d = [].
Proof.
  unfold check_multiple_statements. destruct (sqlglot_parse sql); [|discriminate].
  destruct (_ <=? 1); [discriminate|]. intros H. injection H as <-. repeat split.
Qed.

Lemma base_shape (st : Expression) (aw : bool) (sql : string) :
  flat_map auto_fixable_suggestions
    (app (access_control (classify st) aw) (safety_checks st sql)) = [] /\
  has_code LIMIT_INJECTED (app (access_control (classify st) aw) (safety_checks st sql))
  = false.
Proof.
  unfold access_control, safety_checks, check_delete_without_where,
    check_update_without_where.
  destruct (classify st), aw; simpl;
    destruct (is_delete (kind_of st)), (is_update (kind_of st)), (find is_where st);
    simpl; split; reflexivity.
Qed.

Lemma gather_parts_app (a b : list Diagnostic) :
  gather_parts (app a b) = app (gather_parts a) (gather_parts b).
Proof. unfold gather_parts. apply flat_map_app. Qed.

Lemma any_blocking_app (a b : list Diagnostic) :
  any_blocking (app a b) = any_blocking a || any_blocking b.
Proof. unfold any_blocking. apply existsb_app. Qed.

Section RunPolicyFacts.
Context `{SG : Sqlglot}.
Variable extract_tables : Expression -> list string.

(** Every result of [run_policy], by path. *)
Lemma run_policy_invariants (sql : string) (d : option string) (aw : bool)
    (lim : option Z) (r : DiagnosticResult) :
  run_policy extract_tables sql d aw lim = Ok r ->
  original_sql r = py_strip sql /\
  blocked r = any_blocking (diagnostics r) /\
  flat_map auto_fixable_suggestions (diagnostics r) = [] /\
  (has_code LIMIT_INJECTED (diagnostics r) = true <-> healed_sql r <> None) /\
  (forall h, healed_sql r = Some h ->
     exists n st, lim = Some n /\
       check_multiple_statements (py_strip sql) = None /\
       sqlglot_parse_one d (py_strip sql) = SOk st /\
       classify st = READ /\ kind_of st = Select /\
       find is_limit st = None /\ find is_group st = None /\
       h = expression_sql d (select_limit st n) /\
       has_code LIMIT_INJECTED (diagnostics r) = true /\ blocked r = false).
Proof.
  unfold run_policy. cbv zeta.
  destruct (check_multiple_statements (py_strip sql)) as [md|] eqn:Hm.
  { intros H. injection H as <-. simpl.
    destruct (check_multiple_statements_shape _ _ Hm) as [Hl [Hc Hs]].
    unfold any_blocking, is_blocking, auto_fixable_suggestions, has_code.
    simpl. rewrite Hl, Hs, Hc. simpl. close_rp. }
  destruct (sqlglot_parse_one d (py_strip sql)) as [st|e] eqn:Hp.
  2:{ destruct e; try discriminate; intros H; injection H as <-; simpl; close_rp. }
  destruct (base_shape st aw (py_strip sql)) as [Hg Hlc].
  set (D := app (access_control (classify st) aw) (safety_checks st (py_strip sql))) in *.
  destruct (negb (any_blocking D) && StatementType_eqb (classify st) READ) eqn:Eb;
    [destruct lim as [n|]|].
  - destruct (inject_limit st n) as [st' [ld|]] eqn:Hi.
    + intros H. injection H as <-. simpl.
      destruct (inject_limit_spec _ _ _ _ Hi) as [Hk [Hl [Hgr [-> [Hlv [Hc Hs]]]]]].
      apply andb_true_iff in Eb. destruct Eb as [Eb Er].
      apply negb_true_iff in Eb.
      assert (Hcl : classify st = READ)
        by (destruct (classify st); try discriminate; reflexivity).
      assert (HcLI : has_code LIMIT_INJECTED (app D [ld]) = true).
      { rewrite has_code_app. unfold has_code at 2. simpl. rewrite Hc.
        apply orb_true_r. }
      assert (Hb : any_blocking (app D [ld]) = false).
      { rewrite any_blocking_app, Eb. unfold any_blocking, is_blocking. simpl.
        rewrite Hlv. reflexivity. }
      split; [reflexivity|]. split; [reflexivity|]. split.
      { rewrite flat_map_app, Hg. unfold auto_fixable_suggestions.
        simpl. rewrite Hs. reflexivity. }
      split; [split; [discriminate | intros _; exact HcLI]|].
      intros h Hh. injection Hh as <-.
      exists n, st. repeat split; assumption.
    + intros H. injection H as <-. simpl. rewrite ?Hg, ?Hlc. close_rp.
  - intros H. injection H as <-. simpl. rewrite ?Hg, ?Hlc. close_rp.
  - intros H. injection H as <-. simpl. rewrite ?Hg, ?Hlc. close_rp.
Qed.

Lemma no_auto_fix_parts (ds : list Diagnostic) :
  flat_map auto_fixable_suggestions ds = [] ->
  gather_parts ds = [] /\
  flat_map (fun d =>
    map (fun s => DiagnosticCode_str (code d) ++ ": " ++ sug_message s)
        (filter (fun s => is_machine_applicable (applicability s)) (suggestions d))) ds
  = [].
Proof.
  induction ds as [|d ds IH]; simpl; [split; reflexivity|].
  intros H. apply app_eq_nil in H. destruct H as [H1 H2].
  destruct (IH H2) as [IH1 IH2]. split.
  - unfold gather_parts in *. simpl. rewrite H1, IH1. reflexivity.
  - unfold auto_fixable_suggestions in H1. rewrite H1. exact IH2.
Qed.

(** X2: no result of [run_policy] carries a machine-applicable fix, so
    [applied_fixes_summary] is empty and [apply_fixes] finds nothing to apply. *)
Theorem run_policy_no_autofix (sql : string) (d : option string) (aw : bool)
    (lim : option Z) (r : DiagnosticResult)
    (H : run_policy extract_tables sql d aw lim = Ok r) :
  applied_fixes_summary r = [] /\ gather_parts (diagnostics r) = [] /\
  forall s, apply_fixes s (diagnostics r) = None.
Proof.
  destruct (run_policy_invariants _ _ _ _ _ H) as [_ [_ [Hf _]]].
  destruct (no_auto_fix_parts _ Hf) as [Hg Hs].
  split; [exact Hs|]. split; [exact Hg|].
  intros s. unfold apply_fixes. rewrite Hg. reflexivity.
Qed.

(** X3: [run_policy] heals a statement only by the LIMIT injection: a healed
    SQL comes with a limit argument, a single parsed statement classified READ
    whose root is a SELECT without LIMIT or GROUP BY, and is that statement
    with the limit set, rendered; the result then carries Q0601 and is not
    blocked. Q0601 is present exactly when the result is healed. *)
Theorem run_policy_healed_is_limit (sql : string) (d : option string) (aw : bool)
    (lim : option Z) (r : DiagnosticResult)
    (H : run_policy extract_tables sql d aw lim = Ok r) :
  (has_code LIMIT_INJECTED (diagnostics r) = true <-> healed_sql r <> None) /\
  (forall h, healed_sql r = Some h ->
     exists n st, lim = Some n /\
       sqlglot_parse_one d (py_strip sql) = SOk st /\
       classify st = READ /\ kind_of st = Select /\
       find is_limit st = None /\ find is_group st = None /\
       h = expression_sql d (select_limit st n) /\ blocked r = false).
Proof.
  destruct (run_policy_invariants _ _ _ _ _ H) as [_ [_ [_ [Hc Hh]]]].
  split; [exact Hc|]. intros h E.
  destruct (Hh h E) as [n [st [Hn [_ [Hp [Hr [Hk [Hl [Hg [He [_ Hb]]]]]]]]]]].
  exists n, st. repeat split; assumption.
Qed.

End RunPolicyFacts.

(** ** DiagnosticResult.max_level *)

Lemma max_fold_spec (ls : list Level) (m : Level) :
  (fold_left max_step ls m = m \/ In (fold_left max_step ls m) ls) /\
  Level_value m <= Level_value (fold_left max_step ls m) /\
  (forall x, In x ls -> Level_value x <= Level_value (fold_left max_step ls m)).
Proof.
  revert m. induction ls as [|x ls IH]; intros m; simpl.
  - split; [left; reflexivity|]. split; [lia|]. intros x [].
  - destruct (IH (max_step m x)) as [H1 [H2 H3]].
    assert (Hm : Level_value m <= Level_value (max_step m x) /\
                 Level_value x <= Level_value (max_step m x) /\
                 (max_step m x = m \/ max_step m x = x)).
    { unfold max_step. destruct (Level_value m <? Level_value x) eqn:E;
        apply Z.ltb_lt in E || apply Z.ltb_ge in E; repeat split; auto; lia. }
    destruct Hm as [Hm1 [Hm2 Hm3]].
    split; [|split].
    + destruct H1 as [H1|H1].
      * rewrite H1. destruct Hm3 as [-> | ->]; [left|right; left]; reflexivity.
      * right; right; exact H1.
    + lia.
    + intros y [<-|Hy]; [lia|]. apply H3, Hy.
Qed.

(** X1: [max_level] is [None] exactly for a result without diagnostics;
    otherwise it is the level of one of the diagnostics and no diagnostic has
    a higher level. It is [ERROR] exactly when some diagnostic is blocking. *)
Theorem max_level_spec (r : DiagnosticResult) :
  (max_level r = None <-> diagnostics r = []) /\
  (forall l, max_level r = Some l ->
     (exists d, In d (diagnostics r) /\ level d = l) /\
     forall d, In d (diagnostics r) -> Level_value (level d) <= Level_value l) /\
  (max_level r = Some ERROR <-> any_blocking (diagnostics r) = true).
Proof.
  assert (Hsome : forall l, max_level r = Some l ->
     (exists d, In d (diagnostics r) /\ level d = l) /\
     forall d, In d (diagnostics r) -> Level_value (level d) <= Level_value l).
  { intros l. unfold max_level. destruct (diagnostics r) as [|d ds]; [discriminate|].
    intros E. injection E as E.
    destruct (max_fold_spec (map level ds) (level d)) as [H1 [H2 H3]].
    fold max_step in E. rewrite E in H1, H2, H3. split.
    - destruct H1 as [H1|H1].
      + exists d. split; [left; reflexivity | symmetry; exact H1].
      + apply in_map_iff in H1. destruct H1 as [x [Hx Hin]].
        exists x. split; [right; exact Hin | exact Hx].
    - intros x [<-|Hx]; [exact H2|]. apply H3, in_map, Hx. }
  split; [|split; [exact Hsome|]].
  - unfold max_level. destruct (diagnostics r); split; congruence.
  - unfold any_blocking. rewrite existsb_exists. split.
    + intros E. destruct (proj1 (Hsome _ E)) as [d [Hd Hl]].
      exists d. split; [exact Hd|]. unfold is_blocking. rewrite Hl. reflexivity.
    + intros [d [Hd Hb]].
      destruct (max_level r) as [l|] eqn:E.
      * destruct (Hsome l eq_refl) as [_ Hle]. specialize (Hle d Hd).
        unfold is_blocking in Hb. destruct (level d); try discriminate.
        destruct l; simpl in Hle; try lia; reflexivity.
      * exfalso. unfold max_level in E. destruct (diagnostics r); [contradiction|discriminate].
Qed.

Section RunPolicyFacts2.
Context `{SG : Sqlglot}.
Variable extract_tables : Expression -> list string.

(** X4: every result of [run_policy] keeps the stripped input as
    [original_sql], and is blocked exactly when its highest level is ERROR. *)
Theorem run_policy_blocked_max_level (sql : string) (d : option string) (aw : bool)
    (lim : option Z) (r : DiagnosticResult)
    (H : run_policy extract_tables sql d aw lim = Ok r) :
  original_sql r = py_strip sql /\ (blocked r = true <-> max_level r = Some ERROR).
Proof.
  destruct (run_policy_invariants _ _ _ _ _ _ H) as [Ho [Hb _]].
  split; [exact Ho|]. rewrite Hb. symmetry. apply max_level_spec.
Qed.

(** X5: without [allow_write], a single parsed statement classified DML
    gives a blocked, unhealed result carrying Q0301 (WRITE_BLOCKED); one
    classified DDL gives a blocked, unhealed result carrying Q0302. *)
Theorem run_policy_write_gate (sql : string) (d : option string) (lim : option Z)
    (st : Expression)
    (Hm : check_multiple_statements (py_strip sql) = None)
    (Hp : sqlglot_parse_one d (py_strip sql) = SOk st) :
  (classify st = DML ->
     exists r, run_policy extract_tables sql d false lim = Ok r /\ blocked r = true /\
       healed_sql r = None /\ has_code WRITE_BLOCKED (diagnostics r) = true) /\
  (classify st = DDL ->
     exists r, run_policy extract_tables sql d false lim = Ok r /\ blocked r = true /\
       healed_sql r = None /\ has_code DDL_BLOCKED (diagnostics r) = true).
Proof.
  split; intros Hc; unfold run_policy; cbv zeta; rewrite Hm, Hp, Hc;
    eexists; split; try reflexivity; simpl; repeat split; reflexivity.
Qed.

(** X6: with [allow_write], a single parsed DELETE (resp. UPDATE) root is
    blocked exactly when the tree has no WHERE node, and then carries Q0201
    (resp. Q0203); the result is never healed. *)
Theorem run_policy_where_gate (sql : string) (d : option string) (lim : option Z)
    (st : Expression)
    (Hm : check_multiple_statements (py_strip sql) = None)
    (Hp : sqlglot_parse_one d (py_strip sql) = SOk st) :
  (kind_of st = Delete ->
     exists r, run_policy extract_tables sql d true lim = Ok r /\ healed_sql r = None /\
       (blocked r = true <-> find is_where st = None) /\
       (find is_where st = None -> has_code DELETE_WITHOUT_WHERE (diagnostics r) = true)) /\
  (kind_of st = Update ->
     exists r, run_policy extract_tables sql d true lim = Ok r /\ healed_sql r = None /\
       (blocked r = true <-> find is_where st = None) /\
       (find is_where st = None -> has_code UPDATE_WITHOUT_WHERE (diagnostics r) = true)).
Proof.
  destruct st as [k args]. simpl.
  split; intros ->; unfold run_policy; cbv zeta; rewrite Hm, Hp;
    unfold safety_checks, check_delete_without_where, check_update_without_where;
    simpl; destruct (find is_where (Node _ args)) eqn:Ew; simpl;
    eexists; (split; [reflexivity|]); simpl;
    repeat split; try reflexivity; try discriminate.
Qed.

(** X7: [validate] exits with 1 exactly when the policy blocks; a limit
    [<= 0] disables the injection, and a healed result implies a positive
    limit and is the parsed statement with that limit set. *)
Theorem validate_spec (sql : string) (d : option string) (limit : Z) (aw : bool)
    (r : DiagnosticResult) (c : Z)
    (H : validate extract_tables sql d limit aw = Ok (r, c)) :
  (c = 1 <-> blocked r = true) /\ (c = 0 <-> blocked r = false) /\
  (limit <= 0 -> healed_sql r = None /\ has_code LIMIT_INJECTED (diagnostics r) = false) /\
  (forall h, healed_sql r = Some h -> 0 < limit /\
     exists st, sqlglot_parse_one d (py_strip sql) = SOk st /\
       h = expression_sql d (select_limit st limit)).
Proof.
  unfold validate in H.
  destruct (run_policy extract_tables sql d aw (if 0 <? limit then Some limit else None))
    as [r0|e] eqn:E; simpl in H; [|discriminate].
  injection H as <- <-.
  destruct (run_policy_invariants _ _ _ _ _ _ E) as [_ [_ [_ [Hc Hh]]]].
  assert (Hheal : forall h, healed_sql r0 = Some h -> 0 < limit /\
     exists st, sqlglot_parse_one d (py_strip sql) = SOk st /\
       h = expression_sql d (select_limit st limit)).
  { intros h Eh. destruct (Hh h Eh) as [n [st [Hn [_ [Hp [_ [_ [_ [_ [He _]]]]]]]]]].
    destruct (0 <? limit) eqn:El; [|discriminate].
    injection Hn as <-. apply Z.ltb_lt in El. split; [exact El|].
    exists st. split; assumption. }
  split; [|split; [|split; [|exact Hheal]]].
  - destruct (blocked r0); split; congruence.
  - destruct (blocked r0); split; congruence.
  - intros Hl. destruct (healed_sql r0) as [h|] eqn:Eh.
    + destruct (Hheal h eq_refl) as [Hl' _]. lia.
    + split; [reflexivity|]. destruct (has_code LIMIT_INJECTED (diagnostics r0)); [|reflexivity].
      exfalso. apply (proj1 Hc eq_refl). reflexivity.
Qed.

End RunPolicyFacts2.

(** ** classify and inject_limit *)

(** X8: [classify] returns ADMIN exactly for a GRANT/COPY/Command root and
    UNKNOWN exactly for a root in none of the four groups; a DML root is DML, a
    DDL root is DDL, and a read root is READ, DML or DDL. *)
Theorem classify_by_root (st : Expression) :
  (classify st = ADMIN <-> is_blocked_type (kind_of st) = true) /\
  (classify st = UNKNOWN <->
     is_blocked_type (kind_of st) = false /\ is_read_type (kind_of st) = false /\
     is_dml_type (kind_of st) = false /\ is_ddl_type (kind_of st) = false) /\
  (is_dml_type (kind_of st) = true -> classify st = DML) /\
  (is_ddl_type (kind_of st) = true -> classify st = DDL) /\
  (is_read_type (kind_of st) = true ->
     classify st = READ \/ classify st = DML \/ classify st = DDL).
Proof.
  unfold classify.
  destruct (kind_of st); simpl; try (intuition discriminate);
    destruct (_has_dml_in_cte st), (_has_into st); intuition discriminate.
Qed.

(** X9: [inject_limit] is idempotent: the statement it returns has a LIMIT
    node, so injecting again changes nothing and reports nothing; and when it
    reports nothing the statement is returned unchanged. *)
Theorem inject_limit_idempotent (st : Expression) (n m : Z) :
  inject_limit (fst (inject_limit st n)) m = (fst (inject_limit st n), None) /\
  (snd (inject_limit st n) = None -> fst (inject_limit st n) = st).
Proof.
  destruct (inject_limit st n) as [st' [ld|]] eqn:E; simpl.
  - destruct (inject_limit_spec _ _ _ _ E) as [Hk [_ [_ [-> _]]]].
    split; [|discriminate].
    destruct st as [k args]. simpl in Hk. subst k.
    unfold inject_limit. simpl.
    assert (Hl : is_some (find is_limit
       (Node Select (set_arg "limit"
          (Node Limit [("expression", Node (Literal false (z_to_str n)) [])]) args)))
       = true).
    { apply find_is_some. eexists. split.
      - right. apply (set_arg_walk _ _ args Select).
      - reflexivity. }
    rewrite Hl. reflexivity.
  - split; [|intros _].
    + revert E. unfold inject_limit.
      destruct (is_select (kind_of st)) eqn:Hs; simpl; [|intros H; injection H as <-; rewrite Hs; reflexivity].
      destruct (is_some (find is_limit st)) eqn:Hl; simpl; [intros H; injection H as <-; rewrite Hs, Hl; reflexivity|].
      destruct (is_some (find is_group st)) eqn:Hg; simpl; [intros H; injection H as <-; rewrite Hs, Hl, Hg; reflexivity|].
      discriminate.
    + revert E. unfold inject_limit.
      destruct (is_select (kind_of st)), (is_some (find is_limit st)),
        (is_some (find is_group st)); simpl; intros H; injection H as <-; reflexivity
        || discriminate.
Qed.

(** ** adapters/cost.py *)

Lemma Qgt_bool_iff (x t : Q) : Qgt_bool x t = true <-> (t < x)%Q.
Proof.
  unfold Qgt_bool. rewrite negb_true_iff. split.
  - intros H. apply Qnot_le_lt. intros H'. apply Qle_bool_iff in H'. congruence.
  - intros H. destruct (Qle_bool x t) eqn:E; [|reflexivity].
    apply Qle_bool_iff in E. exfalso. apply (Qlt_not_le _ _ H E).
Qed.

Lemma exceeds_some (e : CostEstimate) (t : option Q) (name : string)
    (f : CostEstimate -> option Q) :
  exceeds (Some e) t name f =
  Ok (match t, f e with Some t, Some x => Qgt_bool x t | _, _ => false end).
Proof. destruct t; simpl; [destruct (f e)|]; reflexivity. Qed.

(** X10: given an estimate, [check_cost_threshold] never raises; it reports
    a diagnostic exactly when some threshold is set, the estimate has that
    field, and the field exceeds it; the diagnostic is an ERROR with code
    Q0401. Without an estimate it returns nothing when no threshold is set,
    and raises [AttributeError] as soon as one is. *)
Theorem check_cost_threshold_spec (gb usd rows : option Q) :
  (forall e, exists res, check_cost_threshold (Some e) gb usd rows = Ok res /\
     (res <> None <->
        match gb, estimated_gb e with Some t, Some x => (t < x)%Q | _, _ => False end \/
        match usd, estimated_cost_usd e with Some t, Some x => (t < x)%Q | _, _ => False end \/
        match rows, estimated_rows e with Some t, Some x => (t < x)%Q | _, _ => False end) /\
     (forall d, res = Some d -> level d = ERROR /\ code d = COST_OVER_THRESHOLD)) /\
  (gb = None /\ usd = None /\ rows = None -> check_cost_threshold None gb usd rows = Ok None) /\
  (gb <> None \/ usd <> None \/ rows <> None ->
     exists msg, check_cost_threshold None gb usd rows = Raise (AttributeError msg)).
Proof.
  split; [|split].
  - intros e. unfold check_cost_threshold. rewrite !exceeds_some. simpl.
    assert (Hb : forall t v, (match t, v with Some t, Some x => Qgt_bool x t
                                   | _, _ => false end = true) <->
                             match t, v with Some t, Some x => (t < x)%Q
                                   | _, _ => False end).
    { intros [t|] [v|]; try (split; [discriminate | intros []]). apply Qgt_bool_iff. }
    pose proof (Hb gb (estimated_gb e)) as B1.
    pose proof (Hb usd (estimated_cost_usd e)) as B2.
    pose proof (Hb rows (estimated_rows e)) as B3.
    destruct (match gb, estimated_gb e with Some t, Some x => Qgt_bool x t | _, _ => false end);
    [|destruct (match usd, estimated_cost_usd e with Some t, Some x => Qgt_bool x t
               | _, _ => false end);
      [|destruct (match rows, estimated_rows e with Some t, Some x => Qgt_bool x t
                 | _, _ => false end)]];
    simpl; eexists; (split; [reflexivity|]);
    (split; [|intros d Hd; (discriminate || (injection Hd as <-; split; reflexivity))]);
    [ split; [intros _; left; apply B1; reflexivity | discriminate]
    | split; [intros _; right; left; apply B2; reflexivity | discriminate]
    | split; [intros _; right; right; apply B3; reflexivity | discriminate]
    | split; [intros H; exfalso; apply H; reflexivity|] ].
    intros [H|[H|H]]; [apply B1 in H | apply B2 in H | apply B3 in H]; discriminate.
  - intros [-> [-> ->]]. reflexivity.
  - intros H. destruct gb; [eexists; reflexivity|].
    destruct usd; [eexists; reflexivity|].
    destruct rows; [eexists; reflexivity|].
    exfalso. destruct H as [H|[H|H]]; apply H; reflexivity.
Qed.

(** ** cli/query.py and cli/exec.py after the policy step *)

(** X11: after the policy step, [query] ends in exit code 0 or 1 and runs the
    statement exactly when it exits 0 without [--dry-run-only]. It never runs a
    blocked statement (exit 1), never runs anything under [--dry-run-only], and
    runs a statement only when the cost check (made unless [--skip-dry-run]
    without [--dry-run-only]) found nothing. *)
Theorem query_after_policy_gate (r : DiagnosticResult) (dro sk : bool)
    (gb usd rows : option Q) (dr : option CostEstimate) (o : Outcome)
    (H : query_after_policy r dro sk gb usd rows dr = Ok o) :
  (exit_code o = 0 \/ exit_code o = 1) /\
  (executed o = true <-> exit_code o = 0 /\ dro = false) /\
  (blocked r = true -> exit_code o = 1 /\ executed o = false) /\
  (executed o = true -> blocked r = false /\
     (negb sk || dro = true -> check_cost_threshold dr gb usd rows = Ok None)).
Proof.
  unfold query_after_policy in H.
  destruct (blocked r) eqn:Eb.
  { injection H as <-. simpl. close_out. }
  destruct (negb sk || dro) eqn:Ec.
  - destruct (check_cost_threshold dr gb usd rows) as [[d|]|e] eqn:Et; simpl in H;
      try discriminate.
    + injection H as <-. simpl. close_out.
    + destruct dro; injection H as <-; simpl; close_out.
  - simpl in H. destruct dro; [destruct sk; discriminate|].
    injection H as <-. simpl. close_out.
Qed.

(** X12: after the policy step, [exec] exits 0 with decision "allow" exactly
    when it runs the statement, and 1 with "deny" otherwise. It never runs a
    statement classified "read" or a blocked one; unless [--skip-dry-run] it
    runs only when the estimate passes every threshold, or, with no estimate,
    when no threshold is set. [--skip-dry-run] bypasses the thresholds. *)
Theorem exec_after_policy_gate (r : DiagnosticResult) (sk : bool)
    (gb usd rows : option Q) (dr : option CostEstimate) :
  (forall o, exec_after_policy r sk gb usd rows dr = Ok o ->
     (executed o = true <-> exit_code o = 0) /\
     (executed o = true <-> decision o = Some "allow") /\
     (executed o = false <-> exit_code o = 1 /\ decision o = Some "deny") /\
     (executed o = true ->
        classification r <> Some "read" /\ blocked r = false /\
        (sk = false -> match dr with
                       | Some e => check_cost_threshold (Some e) gb usd rows = Ok None
                       | None => gb = None /\ usd = None /\ rows = None
                       end))) /\
  (classification r <> Some "read" -> blocked r = false -> sk = true ->
     exec_after_policy r sk gb usd rows dr = Ok (mkOutcome 0 (Some "allow") (policy_codes r) true)).
Proof.
  assert (Hread : forall c, match c with Some c => String.eqb c "read" | None => false end = true
                       <-> c = Some "read").
  { intros [c|]; split; try discriminate.
    - intros H. apply String.eqb_eq in H. subst. reflexivity.
    - intros H. injection H as ->. reflexivity. }
  split.
  - intros o H. unfold exec_after_policy in H.
    destruct (match classification r with Some c => String.eqb c "read" | None => false end)
      eqn:Er.
    { injection H as <-. simpl. close_out. }
    assert (Hr : classification r <> Some "read")
      by (intros Hc; apply Hread in Hc; congruence).
    destruct (blocked r) eqn:Eb.
    { injection H as <-. simpl. close_out. }
    destruct sk.
    + simpl in H. injection H as <-. simpl. close_out.
    + simpl in H. destruct dr as [e|].
      * destruct (check_cost_threshold (Some e) gb usd rows) as [[d|]|x] eqn:Et;
          simpl in H; try discriminate; injection H as <-; simpl;
          close_out.
      * destruct (is_some gb || is_some usd || is_some rows) eqn:Eh; simpl in H;
          injection H as <-; simpl; close_out.
        all: destruct gb, usd, rows; simpl in Eh; try discriminate; reflexivity.
  - intros Hr Hb Hs. subst sk. unfold exec_after_policy.
    destruct (match classification r with Some c => String.eqb c "read" | None => false end)
      eqn:Er; [exfalso; apply Hr, Hread, Er|].
    rewrite Hb. reflexivity.
Qed.

(** ** Span and apply_fixes on one fix *)

Lemma substring_app (s : string) (n m k : nat) :
  substring n m s ++ substring (n + m) k s = substring n (m + k) s.
Proof.
  revert n m. induction s as [|c r IH]; intros n m.
  - destruct n, m, k; reflexivity.
  - destruct n as [|n].
    + destruct m as [|m]; simpl; [reflexivity|].
      f_equal. apply (IH 0%nat m).
    + simpl. apply IH.
Qed.

Lemma substring_full (s : string) : substring 0 (String.length s) s = s.
Proof. induction s as [|c r IH]; simpl; [reflexivity | now rewrite IH]. Qed.

Lemma substring_length (s : string) (n m : nat) :
  (n + m <= String.length s)%nat -> String.length (substring n m s) = m.
Proof.
  revert n m. induction s as [|c r IH]; intros n m H.
  - simpl in H. destruct n, m; simpl in *; lia.
  - destruct n as [|n].
    + destruct m as [|m]; simpl; [reflexivity|]. simpl in H.
      rewrite (IH 0%nat m) by lia. reflexivity.
    + simpl in *. apply IH. lia.
Qed.

Lemma py_index_nonneg (s : string) (k : Z) :
  0 <= k -> Z.of_nat (py_index s k) = Z.min k (py_len s).
Proof.
  intros Hk. unfold py_index. cbv zeta.
  destruct (k <? 0) eqn:E; [apply Z.ltb_lt in E; lia|].
  rewrite Z2Nat.id; [reflexivity | unfold py_len; lia].
Qed.

Lemma py_index_le (s : string) (k : Z) : (py_index s k <= String.length s)%nat.
Proof.
  unfold py_index, py_len. cbv zeta. apply Nat2Z.inj_le.
  destruct (k <? 0) eqn:E; rewrite ?Z.ltb_lt, ?Z.ltb_ge in E; rewrite Z2Nat.id; lia.
Qed.

Lemma prefix_slice_suffix (sql : string) (a b : Z) :
  0 <= a <= b ->
  py_prefix sql a ++ py_slice sql a b ++ py_suffix sql b = sql.
Proof.
  intros Hab. unfold py_prefix, py_slice, py_suffix.
  pose proof (py_index_nonneg sql a (proj1 Hab)) as Ha.
  pose proof (py_index_nonneg sql b ltac:(lia)) as Hb.
  pose proof (py_index_le sql b) as Hbl.
  set (i := py_index sql a) in *. set (j := py_index sql b) in *.
  assert (Hij : (i <= j)%nat) by lia.
  replace j with (i + (j - i))%nat at 2 by lia.
  rewrite substring_app.
  replace i with (0 + i)%nat at 2 by reflexivity.
  rewrite substring_app.
  replace (i + (j - i + (String.length sql - j)))%nat
    with (String.length sql) by lia.
  apply substring_full.
Qed.

(** X13: for a span [0 <= start <= end], the text before the span, the span's
    slice and the text after it put back together give the SQL; when the span
    also ends within the SQL (whose length is at most [sys.maxsize], as every
    Python string's), [len(span)] is the length of its slice. [len]
    raises exactly on a span ending before it starts (or longer than
    [sys.maxsize]), and [len(span) = 0] exactly for an empty span. *)
Theorem span_slice_spec (sp : Span) (sql : string) :
  (0 <= span_start sp <= span_end sp ->
     py_prefix sql (span_start sp) ++ Span_slice sp sql ++ py_suffix sql (span_end sp) = sql) /\
  (0 <= span_start sp <= span_end sp -> span_end sp <= py_len sql ->
     py_len sql <= 9223372036854775807 ->
     Span_len sp = Some (py_len (Span_slice sp sql))) /\
  (Span_len sp = None <->
     span_end sp < span_start sp \/ 9223372036854775807 < span_end sp - span_start sp) /\
  (Span_len sp = Some 0 <-> Span_is_empty sp = true).
Proof.
  split; [|split; [|split]].
  - intros H. apply prefix_slice_suffix. exact H.
  - intros H1 H2 H3. unfold Span_slice, py_slice, Span_len.
    pose proof (py_index_nonneg sql _ (proj1 H1)) as Ha.
    pose proof (py_index_nonneg sql (span_end sp) ltac:(lia)) as Hb.
    pose proof (py_index_le sql (span_end sp)) as Hbl.
    unfold py_len in *.
    rewrite substring_length by lia. rewrite Nat2Z.inj_sub by lia. rewrite Ha, Hb.
    replace (span_end sp - span_start sp <? 0) with false
      by (symmetry; apply Z.ltb_ge; lia).
    replace (9223372036854775807 <? span_end sp - span_start sp) with false
      by (symmetry; apply Z.ltb_ge; lia).
    simpl. f_equal. lia.
  - unfold Span_len.
    destruct (span_end sp - span_start sp <? 0) eqn:E1;
      destruct (9223372036854775807 <? span_end sp - span_start sp) eqn:E2;
      (apply Z.ltb_lt in E1 || apply Z.ltb_ge in E1);
      (apply Z.ltb_lt in E2 || apply Z.ltb_ge in E2);
      simpl; split; intros H; try reflexivity; try discriminate; lia.
  - unfold Span_len, Span_is_empty. rewrite Z.eqb_eq.
    destruct (span_end sp - span_start sp <? 0) eqn:E1;
      destruct (9223372036854775807 <? span_end sp - span_start sp) eqn:E2;
      (apply Z.ltb_lt in E1 || apply Z.ltb_ge in E1);
      (apply Z.ltb_lt in E2 || apply Z.ltb_ge in E2);
      simpl; split; intros H; try discriminate; try lia.
    + injection H as H. lia.
    + f_equal. lia.
Qed.

(** X14: a single [fix] on a diagnostic with no other machine-applicable
    suggestion makes [apply_fixes] splice its replacement over its span; a fix
    that replaces a span (with [0 <= start <= end]) by its own slice gives back
    the SQL. [note], [span], [suggest] and [suggest_template] add no applicable
    suggestion, so a diagnostic built with them alone gives [None], as does an
    empty list. *)
Theorem apply_single_fix (d : Diagnostic) (m : string) (sp : Span) (r sql : string)
    (n lbl : string) (H : auto_fixable_suggestions d = []) :
  apply_fixes sql [Diag.fix' d m sp r] =
    Some (py_prefix sql (span_start sp) ++ r ++ py_suffix sql (span_end sp)) /\
  (0 <= span_start sp <= span_end sp ->
     apply_fixes sql [Diag.fix' d m sp (Span_slice sp sql)] = Some sql) /\
  apply_fixes sql [Diag.note d n] = None /\
  apply_fixes sql [Diag.span d sp lbl] = None /\
  apply_fixes sql [Diag.suggest d m sp r] = None /\
  apply_fixes sql [Diag.suggest_template d m] = None /\
  apply_fixes sql [] = None.
Proof.
  unfold auto_fixable_suggestions in H.
  assert (Hf : forall x, apply_fixes sql [Diag.fix' d m sp x] =
              Some (py_prefix sql (span_start sp) ++ x ++ py_suffix sql (span_end sp))).
  { intros x. unfold apply_fixes, gather_parts, auto_fixable_suggestions, Diag.fix',
      Diag.add_suggestion. simpl. rewrite filter_app, H. simpl. reflexivity. }
  split; [apply Hf|]. split.
  { intros Hs. rewrite Hf. f_equal. apply prefix_slice_suffix. exact Hs. }
  unfold apply_fixes, gather_parts, auto_fixable_suggestions, Diag.note, Diag.span,
    Diag.suggest, Diag.suggest_template, Diag.add_suggestion; simpl.
  rewrite ?filter_app, H. simpl. repeat split; reflexivity.
Qed.

(** ** render_text *)

Lemma prefix_empty (s : string) : String.prefix "" s = true.
Proof. destruct s; reflexivity. Qed.

Lemma render_diag_fix_lines (d : Diagnostic) :
  length (filter (String.prefix fix_line_prefix)
    ((Level_name_lower (level d) ++ "[" ++ DiagnosticCode_str (code d) ++ "]: "
      ++ message d)
     :: app (map (fun n => "  = note: " ++ n) (notes d))
            (map (fun s =>
                    "  = " ++ (if is_machine_applicable (applicability s)
                               then "fix" else "help")
                    ++ ": " ++ sug_message s)
                 (suggestions d))))
  = length (filter (fun s => is_machine_applicable (applicability s)) (suggestions d)).
Proof.
  cbn [filter]. assert (Hh : String.prefix fix_line_prefix
     (Level_name_lower (level d) ++ "[" ++ DiagnosticCode_str (code d) ++ "]: "
      ++ message d) = false) by (destruct (level d); reflexivity).
  rewrite Hh, filter_app.
  assert (Hn : filter (String.prefix fix_line_prefix)
                 (map (fun n => "  = note: " ++ n) (notes d)) = []).
  { induction (notes d) as [|x l IH]; simpl; [reflexivity | exact IH]. }
  rewrite Hn. simpl. unfold fix_line_prefix.
  induction (suggestions d) as [|s l IH]; [reflexivity|].
  destruct (is_machine_applicable (applicability s)) eqn:E; cbn [map filter];
    rewrite E; simpl; rewrite ?prefix_empty; simpl; [f_equal|]; exact IH.
Qed.

(** X15: [render_text] prints one ["  = fix: "] line per machine-applicable
    suggestion, so their number is the length of [applied_fixes_summary]; and
    a healed result's text ends with an empty line and
    ["effective SQL: " ++ healed SQL]. *)
Theorem render_text_fix_lines (r : DiagnosticResult) :
  length (filter (String.prefix fix_line_prefix) (render_text_lines r))
    = length (applied_fixes_summary r) /\
  (forall h, healed_sql r = Some h ->
     exists pre, render_text_lines r = app pre [""; "effective SQL: " ++ h]).
Proof.
  split.
  - unfold render_text_lines, applied_fixes_summary.
    rewrite filter_app, length_app.
    assert (Ht : length (filter (String.prefix fix_line_prefix)
              match healed_sql r with
              | Some _ => [""; "effective SQL: " ++ effective_sql r]
              | None => []
              end) = 0%nat) by (destruct (healed_sql r); reflexivity).
    rewrite Ht, Nat.add_0_r.
    induction (diagnostics r) as [|d ds IH]; [reflexivity|].
    cbn [flat_map]. rewrite filter_app, !length_app, length_map.
    f_equal; [apply (render_diag_fix_lines d) | exact IH].
  - intros h Hh. unfold render_text_lines, effective_sql. rewrite Hh.
    eexists. reflexivity.
Qed.

(** ** DiagnosticCode.__str__ *)

Lemma code_str_table :
  forallb (fun n => let s := DiagnosticCode_str (mkCode (Z.of_nat n)) in
                    Nat.eqb (String.length s) 5 &&
                    String.prefix "Q" s &&
                    match code_digits s with
                    | Some v => Z.eqb v (Z.of_nat n)
                    | None => false
                    end)
          (seq 0 (Z.to_nat 10000)) = true.
Proof. vm_compute. reflexivity. Qed.

(** X16: for a code value in [0, 9999], [str(code)] is ["Q"] followed by
    exactly four digits that read back as the value; so distinct codes in
    that range print differently. *)
Theorem code_str_format (c c' : DiagnosticCode)
    (Hc : 0 <= code_value c <= 9999) (Hc' : 0 <= code_value c' <= 9999) :
  String.length (DiagnosticCode_str c) = 5%nat /\
  String.prefix "Q" (DiagnosticCode_str c) = true /\
  code_digits (DiagnosticCode_str c) = Some (code_value c) /\
  (DiagnosticCode_str c = DiagnosticCode_str c' -> c = c').
Proof.
  assert (Ht : forall v, 0 <= v <= 9999 ->
     String.length (DiagnosticCode_str (mkCode v)) = 5%nat /\
     String.prefix "Q" (DiagnosticCode_str (mkCode v)) = true /\
     code_digits (DiagnosticCode_str (mkCode v)) = Some v).
  { intros v Hv. pose proof code_str_table as T. rewrite forallb_forall in T.
    specialize (T (Z.to_nat v)). rewrite Z2Nat.id in T by lia.
    assert (Hin : In (Z.to_nat v) (seq 0 (Z.to_nat 10000))) by (apply in_seq; lia).
    specialize (T Hin). cbv zeta in T.
    apply andb_true_iff in T. destruct T as [T T3].
    apply andb_true_iff in T. destruct T as [T1 T2].
    apply Nat.eqb_eq in T1.
    destruct (code_digits (DiagnosticCode_str (mkCode v))) as [w|]; [|discriminate].
    apply Z.eqb_eq in T3. subst w. repeat split; assumption. }
  destruct c as [v], c' as [v']. simpl in Hc, Hc'.
  destruct (Ht v Hc) as [H1 [H2 H3]]. destruct (Ht v' Hc') as [_ [_ H3']].
  split; [exact H1|]. split; [exact H2|]. split; [exact H3|].
  intros E. rewrite E in H3. rewrite H3 in H3'. injection H3' as ->. reflexivity.
Qed.

(** ** querylog.py *)

Section QuerylogFacts.
Variable strptime_ymd : string -> option Z.

Lemma cleanup_fold_count (cutoff : Z) (L : list string) (n : Z) (fs : list string) :
  fst (fold_left (cleanup_step strptime_ymd cutoff) L (n, fs)) =
  n + Z.of_nat (length (filter (fun f => match strptime_ymd (stem f) with
                                         | Some t => t <? cutoff
                                         | None => false
                                         end) L)).
Proof.
  revert n fs. induction L as [|g L IH]; intros n fs; simpl; [lia|].
  unfold cleanup_step at 1. destruct (strptime_ymd (stem g)) as [t|];
    [destruct (t <? cutoff)|]; rewrite IH; simpl; lia.
Qed.

(** X17: when [|retention_days| <= 999999999] and the cutoff
    [now - retention_days] days is a representable [datetime],
    [cleanup_old_logs] returns 0 if the log directory does not exist, and
    otherwise the number of [*.jsonl] names in it whose stem parses to a
    date before the cutoff. Otherwise it raises [OverflowError] and returns
    no count. *)
Theorem cleanup_old_logs_count (retention_days now : Z) (d : LogDir) :
  (Z.abs retention_days <= 999999999 ->
   DATETIME_MIN <= now - retention_days * MICROS_PER_DAY <= DATETIME_MAX ->
   exists d', cleanup_old_logs strptime_ymd retention_days now d =
   Ok (if dir_exists d then
         Z.of_nat (length (filter (fun f =>
            match strptime_ymd (stem f) with
            | Some t => t <? now - retention_days * MICROS_PER_DAY
            | None => false
            end) (filter glob_jsonl (dir_files d))))
       else 0, d')) /\
  (~ (Z.abs retention_days <= 999999999 /\
      DATETIME_MIN <= now - retention_days * MICROS_PER_DAY <= DATETIME_MAX) ->
   exists msg, cleanup_old_logs strptime_ymd retention_days now d = Raise (OverflowError msg)).
Proof.
  split.
  - intros Ha Hr. unfold cleanup_old_logs.
    rewrite (proj1 (cleanup_cutoff_spec retention_days now) Ha Hr). simpl py_bind.
    destruct (dir_exists d); simpl; [|eexists; reflexivity].
    pose proof (cleanup_fold_count (now - retention_days * MICROS_PER_DAY)
                  (filter glob_jsonl (dir_files d)) 0 (dir_files d)) as H.
    destruct (fold_left _ _ _) as [deleted files]. simpl in H. rewrite H.
    destruct files; eexists; reflexivity.
  - intros Hn. destruct (proj2 (cleanup_cutoff_spec retention_days now) Hn) as [msg Hm].
    exists msg. unfold cleanup_old_logs. rewrite Hm. reflexivity.
Qed.

End QuerylogFacts.

Lemma rfind_dot_app (s t : string) (i best : Z) :
  rfind_dot_aux (s ++ t) i best =
  rfind_dot_aux t (i + py_len s) (rfind_dot_aux s i best).
Proof.
  revert i best. induction s as [|c r IH]; intros i best; simpl.
  - unfold py_len. simpl. f_equal. lia.
  - rewrite IH. unfold py_len. cbn [String.length]. f_equal. lia.
Qed.

Lemma rfind_dot_none (s : string) (i best : Z) :
  no_dot s = true -> rfind_dot_aux s i best = best.
Proof.
  revert i best. induction s as [|c r IH]; intros i best H; simpl; [reflexivity|].
  simpl in H. apply andb_true_iff in H. destruct H as [Hc Hr].
  destruct (Ascii.eqb c "."); [discriminate|]. apply IH, Hr.
Qed.

Lemma substring_app_prefix (s t : string) :
  substring 0 (String.length s) (s ++ t) = s.
Proof. induction s as [|c r IH]; simpl; [destruct t; reflexivity | now rewrite IH]. Qed.

Lemma str_length_app (s t : string) :
  String.length (s ++ t) = (String.length s + String.length t)%nat.
Proof. induction s as [|c r IH]; simpl; [reflexivity | now rewrite IH]. Qed.

Lemma ends_with_app (suffix s : string) : ends_with suffix (s ++ suffix) = true.
Proof.
  induction s as [|c r IH]; simpl.
  - destruct suffix; simpl; [reflexivity|]. rewrite Ascii.eqb_refl, String.eqb_refl.
    reflexivity.
  - rewrite IH. apply orb_true_r.
Qed.

(** X18: the file the query log appends to for a date string with no dot
    (such as [YYYY-MM-DD]) is one [cleanup_old_logs] globs, and its stem is
    the date string, the value it hands to [strptime]. *)
Theorem today_file_seen_by_cleanup (today : string)
    (Hne : today <> "") (Hnd : no_dot today = true) :
  glob_jsonl (_today_file_name today) = true /\ stem (_today_file_name today) = today.
Proof.
  split; [apply ends_with_app|].
  unfold stem, _today_file_name.
  rewrite rfind_dot_app, (rfind_dot_none today 0 (-1) Hnd). simpl rfind_dot_aux.
  assert (Hl : 0 < py_len today).
  { unfold py_len. destruct today; [contradiction | simpl; lia]. }
  assert (Hl2 : py_len (today ++ ".jsonl") = py_len today + 6).
  { unfold py_len. rewrite str_length_app. simpl. lia. }
  rewrite Hl2, ?Z.add_0_l.
  replace ((0 <? py_len today) && (py_len today <? py_len today + 6 - 1)) with true
    by (symmetry; apply andb_true_iff; split; apply Z.ltb_lt; lia).
  unfold py_prefix, py_index. cbv zeta. rewrite Hl2.
  replace (py_len today <? 0) with false by (symmetry; apply Z.ltb_ge; lia).
  replace (Z.min (py_len today) (py_len today + 6)) with (py_len today) by lia.
  unfold py_len at 1. rewrite Nat2Z.id. apply substring_app_prefix.
Qed.

Lemma replace_char_app (o n : ascii) (a b : string) :
  py_replace_char o n (a ++ b) = py_replace_char o n a ++ py_replace_char o n b.
Proof.
  induction a as [|c r IH]; simpl; [reflexivity|].
  unfold py_replace_char in *. simpl. rewrite IH. reflexivity.
Qed.

Lemma replace_char_gone (o n : ascii) (s : string) :
  o <> n -> contains_char o (py_replace_char o n s) = false.
Proof.
  intros Hon. induction s as [|c r IH]; simpl; [reflexivity|].
  unfold py_replace_char in *. simpl.
  destruct (Ascii.eqb c o) eqn:E; simpl.
  - rewrite IH. destruct (Ascii.eqb_spec n o); [congruence | reflexivity].
  - rewrite E, IH. reflexivity.
Qed.

Lemma lstrip_char_sub (c o : ascii) (s : string) :
  contains_char o s = false -> contains_char o (py_lstrip_char c s) = false.
Proof.
  induction s as [|d r IH]; simpl; [reflexivity|].
  intros H. apply orb_false_iff in H. destruct H as [H1 H2].
  destruct (Ascii.eqb d c); [apply IH, H2 | simpl; rewrite H1, H2; reflexivity].
Qed.

Lemma lstrip_char_head (c : ascii) (s : string) :
  match py_lstrip_char c s with String d _ => d <> c | EmptyString => True end.
Proof.
  induction s as [|d r IH]; simpl; [exact I|].
  destruct (Ascii.eqb_spec d c); [exact IH | exact n].
Qed.

(** X19: the project slug contains no ["/"] and does not start with ["-"];
    a ["/"] and a ["-"] at the same place of the working directory give the
    same slug, so e.g. [/home/u/my-proj] and [/home/u/my/proj] share one log
    directory. *)
Theorem project_slug_spec (cwd a b : string) :
  contains_char "/" (_project_slug cwd) = false /\
  match _project_slug cwd with String d _ => d <> "-"%char | EmptyString => True end /\
  _project_slug (a ++ "/" ++ b) = _project_slug (a ++ "-" ++ b).
Proof.
  split; [|split].
  - unfold _project_slug. apply lstrip_char_sub, replace_char_gone. discriminate.
  - apply lstrip_char_head.
  - unfold _project_slug. rewrite !replace_char_app. reflexivity.
Qed.

(** ** cli/_shared.py: resolve_sql_stdin *)

Lemma drop_space_split (l : list ascii) : exists p, l = app p (drop_space l).
Proof.
  induction l as [|c r IH]; simpl; [exists []; reflexivity|].
  destruct (py_isspace c).
  - destruct IH as [p Hp]. exists (c :: p). simpl. congruence.
  - exists []. reflexivity.
Qed.

Lemma drop_space_head (l : list ascii) : head_not_space (drop_space l).
Proof.
  induction l as [|c r IH]; simpl; [exact I|].
  destruct (py_isspace c) eqn:E; [exact IH | exact E].
Qed.

Lemma drop_space_fix (l : list ascii) : head_not_space l -> drop_space l = l.
Proof. destruct l as [|c r]; simpl; [reflexivity|]. intros ->. reflexivity. Qed.

Lemma head_not_space_prefix (k t : list ascii) :
  head_not_space (app k t) -> head_not_space k.
Proof. destruct k; simpl; auto. Qed.

Lemma py_strip_idempotent (s : string) : py_strip (py_strip s) = py_strip s.
Proof.
  unfold py_strip. rewrite list_ascii_of_string_of_list_ascii.
  set (m := drop_space (list_ascii_of_string s)).
  set (m' := drop_space (rev m)).
  assert (Hk : drop_space (rev m') = rev m').
  { apply drop_space_fix.
    destruct (drop_space_split (rev m)) as [p Hp]. fold m' in Hp.
    assert (Hm : m = app (rev m') (rev p)).
    { rewrite <- rev_app_distr, <- Hp, rev_involutive. reflexivity. }
    apply (head_not_space_prefix _ (rev p)). rewrite <- Hm. apply drop_space_head. }
  rewrite Hk, rev_involutive.
  rewrite (drop_space_fix m') by apply drop_space_head. reflexivity.
Qed.

(** X20: [resolve_sql_stdin] refuses a non-empty SQL argument together with
    [--from-stdin], and refuses [--from-stdin] on a terminal; what it returns is
    never empty; read from stdin it is the stripped input, itself unchanged by
    stripping; otherwise it is the SQL argument as given, unstripped. *)
Theorem resolve_sql_stdin_spec (sql : option string) (fs tty : bool) (text : string) :
  (truthy sql = true -> fs = true ->
     resolve_sql_stdin sql fs tty text =
     ClickRaise (UsageError "Provide SQL as an argument or --from-stdin, not both.")) /\
  (truthy sql = false -> fs = true -> tty = true ->
     exists msg, resolve_sql_stdin sql fs tty text = ClickRaise (UsageError msg)) /\
  (forall s, resolve_sql_stdin sql fs tty text = Done s ->
     s <> "" /\
     (fs = true -> s = py_strip text /\ py_strip s = s) /\
     (fs = false -> sql = Some s)).
Proof.
  split; [|split].
  - intros Ht Hf. unfold resolve_sql_stdin. rewrite Ht, Hf. reflexivity.
  - intros Ht Hf Hy. unfold resolve_sql_stdin. rewrite Ht, Hf, Hy. eexists. reflexivity.
  - intros s. unfold resolve_sql_stdin.
    destruct (truthy sql && fs) eqn:E1; [discriminate|].
    destruct fs.
    + destruct tty; [discriminate|].
      destruct (String.eqb (py_strip text) "") eqn:E2; [discriminate|].
      intros H. injection H as <-. split; [apply String.eqb_neq, E2|].
      split; [intros _; split; [reflexivity | apply py_strip_idempotent] | discriminate].
    + destruct sql as [x|]; [|discriminate].
      destruct (String.eqb x "") eqn:E2; [discriminate|].
      intros H. injection H as <-. split; [apply String.eqb_neq, E2|].
      split; [discriminate | intros _; reflexivity].
Qed.

(** ** cli/_shared.py: parse_db *)

Lemma py_split_app (c : ascii) (p r : string) :
  contains_char c p = false -> py_split c (p ++ String c r) = p :: py_split c r.
Proof.
  induction p as [|d q IH]; simpl; intros H.
  - rewrite Ascii.eqb_refl. reflexivity.
  - apply orb_false_iff in H. destruct H as [H1 H2].
    rewrite H1, IH by exact H2. reflexivity.
Qed.

Lemma py_split_none (c : ascii) (p : string) :
  contains_char c p = false -> py_split c p = [p].
Proof.
  induction p as [|d q IH]; simpl; intros H; [reflexivity|].
  apply orb_false_iff in H. destruct H as [H1 H2].
  rewrite H1, IH by exact H2. reflexivity.
Qed.

Lemma py_split_concat (c : ascii) (ps : list string) :
  ps <> [] -> Forall (fun p => contains_char c p = false) ps ->
  py_split c (String.concat (String c EmptyString) ps) = ps.
Proof.
  induction ps as [|p ps IH]; intros Hne Hc; [contradiction|].
  inversion Hc as [|? ? Hp Hps]; subst.
  destruct ps as [|q qs].
  - simpl. apply py_split_none, Hp.
  - change (String.concat (String c EmptyString) (p :: q :: qs))
      with (p ++ String c (String.concat (String c EmptyString) (q :: qs))).
    rewrite py_split_app by exact Hp.
    rewrite IH; [reflexivity | discriminate | exact Hps].
Qed.

Lemma py_split_once_app (c : ascii) (k v : string) :
  contains_char c k = false -> py_split_once c (k ++ String c v) = Some (k, v).
Proof.
  induction k as [|d q IH]; simpl; intros H.
  - rewrite Ascii.eqb_refl. reflexivity.
  - apply orb_false_iff in H. destruct H as [H1 H2].
    rewrite H1, IH by exact H2. reflexivity.
Qed.

Lemma parse_params_kvs (kvs : list (string * string)) (acc : list (string * string)) :
  Forall (fun kv => contains_char "=" (fst kv) = false /\
                    py_strip (fst kv) = fst kv /\ py_strip (snd kv) = snd kv) kvs ->
  parse_params (map (fun kv => fst kv ++ "=" ++ snd kv) kvs) acc =
  Done (fold_left (fun acc kv => dict_set (fst kv) (snd kv) acc) kvs acc).
Proof.
  revert acc. induction kvs as [|[k v] kvs IH]; intros acc H; simpl; [reflexivity|].
  inversion H as [|? ? [Hk [Hsk Hsv]] Hr]; subst. simpl in Hk, Hsk, Hsv.
  rewrite py_split_once_app by exact Hk. rewrite Hsk, Hsv. apply IH, Hr.
Qed.

(** X21: [parse_db] reads back the [type:k1=v1,k2=v2] spelling of a type and
    key/value pairs (keys without [=], [,]; values without [,]; both already
    stripped), when no named connection has that name: the connection's name
    is the type string and its params are the pairs set in order, a later
    key overriding an earlier one. *)
Theorem parse_db_roundtrip (get_connection : string -> option ConnectionConfig)
    (t : DatabaseType) (kvs : list (string * string))
    (Hnamed : get_connection (db_spec t kvs) = None)
    (Hkv : Forall (fun kv => contains_char "=" (fst kv) = false /\
                             contains_char "," (fst kv) = false /\
                             contains_char "," (snd kv) = false /\
                             py_strip (fst kv) = fst kv /\ py_strip (snd kv) = snd kv) kvs) :
  parse_db get_connection (db_spec t kvs) =
  Done (mkConfig (DatabaseType_value t) t
          (fold_left (fun acc kv => dict_set (fst kv) (snd kv) acc) kvs [])).
Proof.
  unfold parse_db. rewrite Hnamed.
  assert (Hs : py_split_once ":" (db_spec t kvs) =
               Some (DatabaseType_value t,
                     String.concat "," (map (fun kv => fst kv ++ "=" ++ snd kv) kvs))).
  { unfold db_spec. destruct t; reflexivity. }
  rewrite Hs.
  assert (Ht : DatabaseType_of_value (DatabaseType_value t) = Some t) by (destruct t; reflexivity).
  rewrite Ht.
  destruct kvs as [|kv kvs'] eqn:Ek.
  - reflexivity.
  - rewrite <- Ek in *.
    assert (Hne : String.eqb (String.concat "," (map (fun kv => fst kv ++ "=" ++ snd kv) kvs)) ""
                  = false).
    { rewrite Ek. simpl. destruct kvs' as [|kv2 r]; destruct (fst kv); reflexivity. }
    rewrite Hne.
    assert (Hc : Forall (fun p => contains_char "," p = false)
                   (map (fun kv => fst kv ++ "=" ++ snd kv) kvs)).
    { apply Forall_map. eapply Forall_impl; [|exact Hkv].
      intros [k v] [_ [Hk [Hv _]]]. simpl in *.
      clear -Hk Hv. induction k as [|d q IH]; simpl in *; [exact Hv|].
      apply orb_false_iff in Hk. destruct Hk as [H1 H2]. rewrite H1. apply IH, H2. }
    change "," with (String "," EmptyString).
    rewrite py_split_concat; [| rewrite Ek; discriminate | exact Hc].
    rewrite parse_params_kvs; [reflexivity|].
    eapply Forall_impl; [|exact Hkv]. intros kv0 [H1 [_ [_ [H4 H5]]]]. auto.
Qed.

(** X22: without a named connection, [parse_db] raises click's
    [BadParameter] (with hint ['--db']) on a value with no [:], on one whose
    part before the first [:] is not a database type, and on a non-empty
    parameter list with a part that has no [=]. *)
Theorem parse_db_errors (get_connection : string -> option ConnectionConfig)
    (value : string) (Hnamed : get_connection value = None) :
  (contains_char ":" value = false ->
     exists msg, parse_db get_connection value = ClickRaise (BadParameter msg "'--db'")) /\
  (forall ty ps, py_split_once ":" value = Some (ty, ps) ->
     DatabaseType_of_value ty = None ->
     parse_db get_connection value = ClickRaise (BadParameter
       ("Unknown database type '" ++ ty ++ "'. Valid: postgres, bigquery, duckdb") "'--db'")) /\
  (forall ty ps t part, py_split_once ":" value = Some (ty, ps) ->
     DatabaseType_of_value ty = Some t -> ps <> "" ->
     In part (py_split "," ps) -> contains_char "=" part = false ->
     exists msg, parse_db get_connection value = ClickRaise (BadParameter msg "'--db'")).
Proof.
  assert (Hnone : forall c s, contains_char c s = false -> py_split_once c s = None).
  { intros c s. induction s as [|d r IH]; simpl; [reflexivity|].
    intros H. apply orb_false_iff in H. destruct H as [H1 H2].
    rewrite H1, IH by exact H2. reflexivity. }
  assert (Hpp : forall ps acc part, In part ps -> py_split_once "=" part = None ->
             exists msg, parse_params ps acc = ClickRaise (BadParameter msg "'--db'")).
  { induction ps as [|p ps IH]; intros acc part Hin Hp; [destruct Hin|]. simpl.
    destruct (py_split_once "=" p) as [[k v]|] eqn:E.
    - destruct Hin as [<-|Hin]; [congruence|]. eapply IH; eassumption.
    - eexists. reflexivity. }
  split; [|split].
  - intros Hc. unfold parse_db. rewrite Hnamed, (Hnone _ _ Hc). eexists. reflexivity.
  - intros ty ps Hs Ht. unfold parse_db. rewrite Hnamed, Hs, Ht. reflexivity.
  - intros ty ps t part Hs Ht Hne Hin Hc. unfold parse_db. rewrite Hnamed, Hs, Ht.
    destruct (String.eqb_spec ps ""); [contradiction|].
    destruct (Hpp (py_split "," ps) [] part Hin (Hnone _ _ Hc)) as [msg Hm].
    rewrite Hm. eexists. reflexivity.
Qed.

(** ** Witnesses *)

Lemma run_policy_no_autofix_witness :
  run_policy no_tables "SELECT id FROM users" None false (Some 1000)
  = Ok (policy_result_of "SELECT id FROM users" None false (Some 1000)) /\
  applied_fixes_summary (policy_result_of "SELECT id FROM users" None false (Some 1000)) = [] /\
  gather_parts (diagnostics (policy_result_of "SELECT id FROM users" None false (Some 1000)))
  = [] /\
  forall s, apply_fixes s
    (diagnostics (policy_result_of "SELECT id FROM users" None false (Some 1000))) = None.
Proof.
  assert (H : run_policy no_tables "SELECT id FROM users" None false (Some 1000)
              = Ok (policy_result_of "SELECT id FROM users" None false (Some 1000)))
    by (vm_compute; reflexivity).
  split; [exact H|]. exact (run_policy_no_autofix no_tables _ _ _ _ _ H).
Defined.

Lemma run_policy_healed_is_limit_witness :
  run_policy no_tables "SELECT id FROM users" None false (Some 1000)
  = Ok (policy_result_of "SELECT id FROM users" None false (Some 1000)) /\
  let r := policy_result_of "SELECT id FROM users" None false (Some 1000) in
  (has_code LIMIT_INJECTED (diagnostics r) = true <-> healed_sql r <> None) /\
  (forall h, healed_sql r = Some h ->
     exists n st, Some 1000 = Some n /\
       sqlglot_parse_one None (py_strip "SELECT id FROM users") = SOk st /\
       classify st = READ /\ kind_of st = Select /\
       find is_limit st = None /\ find is_group st = None /\
       h = expression_sql None (select_limit st n) /\ blocked r = false).
Proof.
  assert (H : run_policy no_tables "SELECT id FROM users" None false (Some 1000)
              = Ok (policy_result_of "SELECT id FROM users" None false (Some 1000)))
    by (vm_compute; reflexivity).
  split; [exact H|]. exact (run_policy_healed_is_limit no_tables _ _ _ _ _ H).
Defined.

Lemma run_policy_blocked_max_level_witness :
  run_policy no_tables "DELETE FROM t WHERE id=1" None false (Some 1000)
  = Ok (policy_result_of "DELETE FROM t WHERE id=1" None false (Some 1000)) /\
  original_sql (policy_result_of "DELETE FROM t WHERE id=1" None false (Some 1000))
  = py_strip "DELETE FROM t WHERE id=1" /\
  (blocked (policy_result_of "DELETE FROM t WHERE id=1" None false (Some 1000)) = true <->
   max_level (policy_result_of "DELETE FROM t WHERE id=1" None false (Some 1000))
   = Some ERROR).
Proof.
  assert (H : run_policy no_tables "DELETE FROM t WHERE id=1" None false (Some 1000)
              = Ok (policy_result_of "DELETE FROM t WHERE id=1" None false (Some 1000)))
    by (vm_compute; reflexivity).
  split; [exact H|]. exact (run_policy_blocked_max_level no_tables _ _ _ _ _ H).
Defined.

Lemma run_policy_write_gate_witness :
  check_multiple_statements (py_strip "DELETE FROM t WHERE id=1") = None /\
  sqlglot_parse_one None (py_strip "DELETE FROM t WHERE id=1") = SOk delete_where_stmt /\
  classify delete_where_stmt = DML /\
  exists r, run_policy no_tables "DELETE FROM t WHERE id=1" None false (Some 1000) = Ok r /\
    blocked r = true /\ healed_sql r = None /\ has_code WRITE_BLOCKED (diagnostics r) = true.
Proof.
  assert (Hm : check_multiple_statements (py_strip "DELETE FROM t WHERE id=1") = None)
    by (vm_compute; reflexivity).
  assert (Hp : sqlglot_parse_one None (py_strip "DELETE FROM t WHERE id=1")
               = SOk delete_where_stmt) by (vm_compute; reflexivity).
  assert (Hc : classify delete_where_stmt = DML) by (vm_compute; reflexivity).
  split; [exact Hm|]. split; [exact Hp|]. split; [exact Hc|].
  exact (proj1 (run_policy_write_gate no_tables _ None (Some 1000) _ Hm Hp) Hc).
Defined.

Lemma run_policy_where_gate_witness :
  check_multiple_statements (py_strip "DELETE FROM t WHERE id=1") = None /\
  sqlglot_parse_one None (py_strip "DELETE FROM t WHERE id=1") = SOk delete_where_stmt /\
  kind_of delete_where_stmt = Delete /\
  exists r, run_policy no_tables "DELETE FROM t WHERE id=1" None true (Some 1000) = Ok r /\
    healed_sql r = None /\
    (blocked r = true <-> find is_where delete_where_stmt = None) /\
    (find is_where delete_where_stmt = None ->
       has_code DELETE_WITHOUT_WHERE (diagnostics r) = true).
Proof.
  assert (Hm : check_multiple_statements (py_strip "DELETE FROM t WHERE id=1") = None)
    by (vm_compute; reflexivity).
  assert (Hp : sqlglot_parse_one None (py_strip "DELETE FROM t WHERE id=1")
               = SOk delete_where_stmt) by (vm_compute; reflexivity).
  assert (Hk : kind_of delete_where_stmt = Delete) by reflexivity.
  split; [exact Hm|]. split; [exact Hp|]. split; [exact Hk|].
  exact (proj1 (run_policy_where_gate no_tables _ None (Some 1000) _ Hm Hp) Hk).
Defined.

Lemma validate_spec_witness :
  validate no_tables "SELECT id FROM users" None 1000 false
  = Ok (policy_result_of "SELECT id FROM users" None false (Some 1000), 0) /\
  let r := policy_result_of "SELECT id FROM users" None false (Some 1000) in
  (0 = 1 <-> blocked r = true) /\ (0 = 0 <-> blocked r = false) /\
  (1000 <= 0 -> healed_sql r = None /\ has_code LIMIT_INJECTED (diagnostics r) = false) /\
  (forall h, healed_sql r = Some h -> 0 < 1000 /\
     exists st, sqlglot_parse_one None (py_strip "SELECT id FROM users") = SOk st /\
       h = expression_sql None (select_limit st 1000)).
Proof.
  assert (H : validate no_tables "SELECT id FROM users" None 1000 false
              = Ok (policy_result_of "SELECT id FROM users" None false (Some 1000), 0))
    by (vm_compute; reflexivity).
  split; [exact H|]. exact (validate_spec no_tables _ _ _ _ _ _ H).
Defined.

Lemma query_after_policy_gate_witness :
  let pr := mkResult "SELECT 1" None [] false [] None in
  query_after_policy pr false false None None None None = Ok (mkOutcome 0 None [] true) /\
  (exit_code (mkOutcome 0 None [] true) = 0 \/ exit_code (mkOutcome 0 None [] true) = 1) /\
  (executed (mkOutcome 0 None [] true) = true <->
     exit_code (mkOutcome 0 None [] true) = 0 /\ false = false) /\
  (blocked pr = true -> exit_code (mkOutcome 0 None [] true) = 1 /\
     executed (mkOutcome 0 None [] true) = false) /\
  (executed (mkOutcome 0 None [] true) = true -> blocked pr = false /\
     (negb false || false = true -> check_cost_threshold None None None None = Ok None)).
Proof.
  cbv zeta.
  assert (H : query_after_policy (mkResult "SELECT 1" None [] false [] None) false false
                None None None None = Ok (mkOutcome 0 None [] true)) by reflexivity.
  split; [exact H|]. exact (query_after_policy_gate _ _ _ _ _ _ _ _ H).
Defined.

Lemma apply_single_fix_witness :
  auto_fixable_suggestions (Diag.error DELETE_WITHOUT_WHERE "") = [] /\
  apply_fixes "delete * t" [Diag.fix' (Diag.error DELETE_WITHOUT_WHERE "") "a" (mkSpan 0 6)
                             "DELETE"]
  = Some (py_prefix "delete * t" 0 ++ "DELETE" ++ py_suffix "delete * t" 6).
Proof.
  assert (H : auto_fixable_suggestions (Diag.error DELETE_WITHOUT_WHERE "") = [])
    by reflexivity.
  split; [exact H|].
  exact (proj1 (apply_single_fix _ "a" (mkSpan 0 6) "DELETE" "delete * t" "n" "l" H)).
Defined.

Lemma code_str_format_witness :
  0 <= code_value LIMIT_INJECTED <= 9999 /\ 0 <= code_value WRITE_BLOCKED <= 9999 /\
  String.length (DiagnosticCode_str LIMIT_INJECTED) = 5%nat /\
  String.prefix "Q" (DiagnosticCode_str LIMIT_INJECTED) = true /\
  code_digits (DiagnosticCode_str LIMIT_INJECTED) = Some (code_value LIMIT_INJECTED) /\
  (DiagnosticCode_str LIMIT_INJECTED = DiagnosticCode_str WRITE_BLOCKED ->
   LIMIT_INJECTED = WRITE_BLOCKED).
Proof.
  assert (H1 : 0 <= code_value LIMIT_INJECTED <= 9999) by (simpl; lia).
  assert (H2 : 0 <= code_value WRITE_BLOCKED <= 9999) by (simpl; lia).
  split; [exact H1|]. split; [exact H2|].
  exact (code_str_format _ _ H1 H2).
Defined.

Lemma today_file_seen_by_cleanup_witness :
  "2026-10-14" <> "" /\ no_dot "2026-10-14" = true /\
  glob_jsonl (_today_file_name "2026-10-14") = true /\
  stem (_today_file_name "2026-10-14") = "2026-10-14".
Proof.
  assert (H1 : "2026-10-14" <> "") by discriminate.
  assert (H2 : no_dot "2026-10-14" = true) by reflexivity.
  split; [exact H1|]. split; [exact H2|].
  exact (today_file_seen_by_cleanup _ H1 H2).
Defined.

Lemma parse_db_roundtrip_witness :
  let kvs := [("host", "h"); ("port", "5432"); ("host", "x")] in
  (fun _ : string => @None ConnectionConfig) (db_spec POSTGRES kvs) = None /\
  parse_db (fun _ => None) (db_spec POSTGRES kvs)
  = Done (mkConfig "postgres" POSTGRES
            (fold_left (fun acc kv => dict_set (fst kv) (snd kv) acc) kvs [])).
Proof.
  cbv zeta.
  assert (H1 : (fun _ : string => @None ConnectionConfig)
                 (db_spec POSTGRES [("host", "h"); ("port", "5432"); ("host", "x")]) = None)
    by reflexivity.
  assert (H2 : Forall (fun kv => contains_char "=" (fst kv) = false /\
                                 contains_char "," (fst kv) = false /\
                                 contains_char "," (snd kv) = false /\
                                 py_strip (fst kv) = fst kv /\ py_strip (snd kv) = snd kv)
                 [("host", "h"); ("port", "5432"); ("host", "x")])
    by (repeat constructor).
  split; [exact H1|].
  exact (parse_db_roundtrip (fun _ => None) POSTGRES _ H1 H2).
Defined.

Lemma parse_db_errors_witness :
  (fun _ : string => @None ConnectionConfig) "prod" = None /\
  (contains_char ":" "prod" = false ->
     exists msg, parse_db (fun _ => None) "prod" = ClickRaise (BadParameter msg "'--db'")).
Proof.
  assert (H : (fun _ : string => @None ConnectionConfig) "prod" = None) by reflexivity.
  split; [exact H|].
  exact (proj1 (parse_db_errors (fun _ => None) "prod" H)).
Defined.

Lemma cleanup_old_logs_count_witness :
  Z.abs 30 <= 999999999 /\
  DATETIME_MIN <= days_from_civil 2026 10 14 * MICROS_PER_DAY - 30 * MICROS_PER_DAY
  <= DATETIME_MAX /\
  exists d', cleanup_old_logs ymd_strptime 30 (days_from_civil 2026 10 14 * MICROS_PER_DAY)
               (mkLogDir true ["2020-01-01.jsonl"; "notes.jsonl"; "a.txt"])
             = Ok (1, d').
Proof.
  assert (Ha : Z.abs 30 <= 999999999) by (vm_compute; discriminate).
  assert (Hr : DATETIME_MIN <= days_from_civil 2026 10 14 * MICROS_PER_DAY - 30 * MICROS_PER_DAY
               <= DATETIME_MAX) by (vm_compute; split; discriminate).
  split; [exact Ha|]. split; [exact Hr|].
  exact (proj1 (cleanup_old_logs_count ymd_strptime 30
                  (days_from_civil 2026 10 14 * MICROS_PER_DAY)
                  (mkLogDir true ["2020-01-01.jsonl"; "notes.jsonl"; "a.txt"])) Ha Hr).
Defined.
